(** * Moody-diagram friction factors (hw5a.py, hw5b.py)

    A shallow embedding of the friction-factor engine [ff] / [ffPoint] and of
    the chart routine [plotMoody] / [PlotPoint].

    Numbers are IEEE binary64 values, as Python's [float] and numpy's
    [float64] are: Rocq's primitive floats.  The library routines the
    program calls but does not define (numpy's [log10] and [power], scipy's
    [fsolve], [random.normalvariate]) are variables of the section that
    holds the program; the pyplot toolkit is the ordered log of the calls
    made to it.  The two [main] functions run in a session that adds the
    lines of the standard input and what is written to the standard
    output; the built-ins they use ([float], [**], [str.strip],
    [str.lower]) are variables as well. *)

From Stdlib Require Import ZArith Ascii String List Bool Lia.
From Stdlib Require Import Uint63 Floats.
Import ListNotations.

Set Warnings "-inexact-float".
Local Open Scope float_scope.

(** ** Values, exceptions, results *)

(** The exceptions the modelled code can raise. *)
Inductive exn : Type :=
| ZeroDivisionError
| IndexError.

Inductive result (A : Type) : Type :=
| Ok (a : A)
| Raise (e : exn).
Arguments Ok {A} a.
Arguments Raise {A} e.

(** A Reynolds number reaches [ff] either as a Python [float] (from [main]
    and [ffPoint]) or as a numpy [float64] (the elements of the arrays of
    [plotMoody]).  Both carry a binary64 value; they differ in the division
    [64/Re]: Python raises on a zero divisor, numpy returns an infinity or
    a NaN (and warns). *)
Inductive number : Type :=
| PyFloat (x : float)
| NpFloat64 (x : float).

Definition value (n : number) : float :=
  match n with PyFloat x => x | NpFloat64 x => x end.

(** [a / b] of the source, for a Python float [a]. *)
Definition truediv (a : float) (b : number) : result float :=
  match b with
  | PyFloat y => if y =? 0 then Raise ZeroDivisionError else Ok (a / y)
  | NpFloat64 y => Ok (a / y)
  end.

(** Python's two-argument [max]: the first argument unless the second is
    strictly greater. *)
Definition py_max (a b : float) : float := if a <? b then b else a.

(** Error monad of the pure code. *)
Definition rbind {A B} (r : result A) (k : A -> result B) : result B :=
  match r with Ok a => k a | Raise e => Raise e end.

(** A list comprehension [[f(x) for x in l]]: left to right, stopping at
    the first exception. *)
Fixpoint comprehension {A B} (f : A -> result B) (l : list A) : result (list B) :=
  match l with
  | [] => Ok []
  | x :: l' => rbind (f x) (fun y => rbind (comprehension f l') (fun ys => Ok (y :: ys)))
  end.

(** [a[i]] for [0 <= i]. *)
Definition index {A} (a : list A) (i : nat) : result A :=
  match nth_error a i with Some x => Ok x | None => Raise IndexError end.

(** [a[-1]]. *)
Definition index_last {A} (a : list A) : result A :=
  match rev a with x :: _ => Ok x | [] => Raise IndexError end.

(** ** numpy's [linspace] and [logspace] *)

Definition float_of_nat (i : nat) : float :=
  PrimFloat.of_uint63 (Uint63.of_Z (Z.of_nat i)).

(** [arr[-1] = v] on a non-empty array. *)
Definition set_last (l : list float) (v : float) : list float :=
  match rev l with
  | [] => []
  | _ :: r => rev r ++ [v]
  end.

(** [np.linspace(start, stop, num)] with the end point included: the
    samples [i*step + start] of [arange(0, num)], the last one overwritten
    by [stop]. *)
Definition linspace (start stop : float) (num : nat) : list float :=
  let div := float_of_nat (num - 1) in
  let delta := stop - start in
  let y := map float_of_nat (seq 0 num) in
  let y :=
    if (0 <? num - 1)%nat then
      let step := delta / div in
      if step =? 0 then map (fun v => v / div * delta) y
      else map (fun v => v * step) y
    else map (fun v => v * delta) y in
  let y := map (fun v => v + start) y in
  if (1 <? num)%nat then set_last y stop else y.

(** ** The pyplot toolkit as a log of calls *)

(** An f-string: literal pieces and numbers formatted with [:.{d}e]. *)
Inductive fstring : Type :=
| FLit (s : string)
| FSci (digits : nat) (x : float)
| FCat (a b : fstring).

Inductive kwarg : Type :=
| KStr (s : string)
| KBool (b : bool)
| KNum (x : float).

Inductive call : Type :=
| figure (width height : float)
| loglog (xs ys : list float) (fmt : string)
| annotate (xy : float * float) (text : fstring)
| xlim (lo hi : float)
| ylim (lo hi : float)
| xlabel (s : string) (fontsize : float)
| ylabel (s : string) (fontsize : float)
| text (x y : float) (s : string) (rotation fontsize : float)
| tick_params (kw : list (string * kwarg))
| set_minor_formatter (axis fmt : string)
| grid (which : string)
| plot (x y : float) (marker : string) (markersize : float)
       (markeredgecolor markerfacecolor : string) (label : option fstring)
| legend (title loc : string)
| show.

(** The curves of a log drawn with a given format string. *)
Fixpoint curves (fmt : string) (cs : list call) : list (list float * list float) :=
  match cs with
  | [] => []
  | loglog xs ys f :: cs' =>
      if String.eqb f fmt then (xs, ys) :: curves fmt cs' else curves fmt cs'
  | _ :: cs' => curves fmt cs'
  end.

(** The axis limits in force after a log of calls: those of the last
    [xlim] and of the last [ylim]. *)
Fixpoint last_xlim (cs : list call) : option (float * float) :=
  match cs with
  | [] => None
  | c :: cs' =>
      match last_xlim cs', c with
      | Some l, _ => Some l
      | None, xlim lo hi => Some (lo, hi)
      | None, _ => None
      end
  end.

Fixpoint last_ylim (cs : list call) : option (float * float) :=
  match cs with
  | [] => None
  | c :: cs' =>
      match last_ylim cs', c with
      | Some l, _ => Some l
      | None, ylim lo hi => Some (lo, hi)
      | None, _ => None
      end
  end.

(** Every curve of a log, with its format string, in order. *)
Fixpoint all_curves (cs : list call) : list (list float * list float * string) :=
  match cs with
  | [] => []
  | loglog xs ys fmt :: cs' => (xs, ys, fmt) :: all_curves cs'
  | _ :: cs' => all_curves cs'
  end.

(** All the numbers of an array lie in [[lo, hi]]. *)
Definition all_within (lo hi : float) (xs : list float) : bool :=
  forallb (fun x => (lo <=? x) && (x <=? hi)) xs.

(** The sample of index [i] among [num] samples evenly spaced from [start]
    to [stop], the last one apart: [start + i * step], where
    [step = (stop - start) / (num - 1)]; numpy divides first and multiplies
    after when [step] is zero. *)
Definition evenly (start stop : float) (num i : nat) : float :=
  let div := float_of_nat (num - 1) in
  let delta := stop - start in
  (if delta / div =? 0 then float_of_nat i / div * delta
   else float_of_nat i * (delta / div)) + start.

(** The markers, annotations, legends and displays of a log, in order. *)
Definition is_plot (c : call) : bool :=
  match c with plot _ _ _ _ _ _ _ => true | _ => false end.

Definition is_annotate (c : call) : bool :=
  match c with annotate _ _ => true | _ => false end.

Definition is_legend (c : call) : bool :=
  match c with legend _ _ => true | _ => false end.

Definition is_show (c : call) : bool :=
  match c with show => true | _ => false end.

Definition markers (cs : list call) : list call := filter is_plot cs.
Definition annotations (cs : list call) : list call := filter is_annotate cs.

(** ** The console *)

(** What the two [main] functions can end with: an exception of the
    functions they call, or one of the built-ins they use ([float],
    [input], [**]). *)
Inductive error : Type :=
| Exn (e : exn)
| ValueError
| EOFError
| OverflowError.

Inductive outcome (A : Type) : Type :=
| Done (a : A)
| Fail (e : error).
Arguments Done {A} a.
Arguments Fail {A} e.

(** What is written to the standard output: the prompt of an [input], a
    printed literal, and the line
    [f"Head loss per foot: {hf_L:.6f} ft/ft"]. *)
Inductive printed : Type :=
| Prompt (s : string)
| Line (s : string)
| HeadLossLine (hf_L : float).

Definition is_head_loss (p : printed) : bool :=
  match p with HeadLossLine _ => true | _ => false end.

(** The values of the test of [hw5a.main], and Python's truth of them. *)
Inductive pyval : Type :=
| VBool (b : bool)
| VStr (s : string).

Definition truthy (v : pyval) : bool :=
  match v with
  | VBool b => b
  | VStr s => negb (String.eqb s "")
  end.

(** [a or b]. *)
Definition py_or (a b : pyval) : pyval := if truthy a then a else b.

(** [a / b] where [b] is a Python float and [a] a product that is a numpy
    float64 as soon as one factor is. *)
Definition truediv_by (a : number) (b : float) : result float :=
  match a with
  | PyFloat x => if b =? 0 then Raise ZeroDivisionError else Ok (x / b)
  | NpFloat64 x => Ok (x / b)
  end.

(** ** Library routines

    What MINPACK's hybrd hands to [scipy.optimize.fsolve] for a scalar
    unknown: the last iterate and the status flag, 1 for convergence.
    [fsolve] called without [full_output] returns the iterate alone (as a
    one-element array) and turns the other statuses into a RuntimeWarning of
    its own. *)
Record solution : Type := { sol_x : float; sol_ier : Z }.

(** Without [full_output], [fsolve] hands a status from 2 to 5 to
    [warnings.warn] as a RuntimeWarning before it returns the iterate. *)
Definition fsolve_warns (r : solution) : bool :=
  ((2 <=? sol_ier r) && (sol_ier r <=? 5))%Z.

(** Executable stand-ins for the library routines, for running the model
    on concrete inputs.  They are not those of numpy and scipy: the
    logarithm and the power are accurate to about twelve digits, and the
    root-finders are plain iterations. *)
Module Reference.

Definition of_Z (z : Z) : float :=
  match z with
  | Z0 => 0
  | Zpos _ => PrimFloat.of_uint63 (Uint63.of_Z z)
  | Zneg p => - PrimFloat.of_uint63 (Uint63.of_Z (Zpos p))
  end.

(** [term/k + term*t2/(k+2) + ...], [n] terms. *)
Fixpoint odd_series (n : nat) (t2 term k : float) : float :=
  match n with
  | O => 0
  | S n' => term / k + odd_series n' t2 (term * t2) (k + 2)
  end.

Definition ln2 : float := 0.6931471805599453.
Definition ln10 : float := 2.302585092994046.

(** Natural logarithm: [x = m * 2^e] with [m] in [[1/2, 1)], and
    [ln m = 2 atanh ((m-1)/(m+1))]. *)
Definition ln (x : float) : float :=
  if x <? 0 then nan
  else if x =? 0 then neg_infinity
  else if x =? infinity then infinity
  else if x =? x then
    let (m, e) := Z.frexp x in
    let t := (m - 1) / (m + 1) in
    2 * odd_series 30 (t * t) t 1 + of_Z e * ln2
  else nan.

Definition log10 (x : float) : float := ln x / ln10.

(** [1 + z + z^2/2! + ...], [n] terms. *)
Fixpoint exp_series (n : nat) (z term k : float) : float :=
  match n with
  | O => 0
  | S n' => term + exp_series n' z (term * z / k) (k + 1)
  end.

Fixpoint square_times (n : nat) (x : float) : float :=
  match n with O => x | S n' => square_times n' (x * x) end.

(** [exp z = (exp (z / 2^10))^(2^10)]. *)
Definition exp (z : float) : float := square_times 10 (exp_series 20 (z / 1024) 1 1).

(** [base ** y] for a positive base. *)
Definition power (base y : float) : float := exp (y * ln base).

(** A secant iteration with a budget of steps: status 1 when the residual
    has vanished, 2 when the budget is spent. *)
Fixpoint secant (fuel : nat) (F : float -> float) (x0 x1 : float) : solution :=
  let f1 := F x1 in
  if abs f1 <=? 1e-12 then {| sol_x := x1; sol_ier := 1 |}
  else
    match fuel with
    | O => {| sol_x := x1; sol_ier := 2 |}
    | S fuel' => secant fuel' F x1 (x1 - f1 * (x1 - x0) / (f1 - F x0))
    end.

Definition fsolve (F : float -> float) (x0 : float) : solution :=
  secant 60 F (x0 * 1.01) x0.

(** A second root-finder: a damped Newton iteration on a forward
    difference which, like MINPACK's, keeps a step only when it brings the
    residual down.  Status 1 when the residual has vanished, 5 after ten
    steps in a row without progress, 2 when the budget is spent. *)
Fixpoint damped (fuel : nat) (F : float -> float) (x fx t : float) (stalled : nat)
    : solution :=
  if abs fx <=? 1e-12 then {| sol_x := x; sol_ier := 1 |}
  else if (10 <=? stalled)%nat then {| sol_x := x; sol_ier := 5 |}
  else
    match fuel with
    | O => {| sol_x := x; sol_ier := 2 |}
    | S fuel' =>
        let h := 1.4901161193847656e-08 * abs x in
        let J := (F (x + h) - fx) / h in
        let x' := x - t * (fx / J) in
        let fx' := F x' in
        if abs fx' <? abs fx then damped fuel' F x' fx' 1 0
        else damped fuel' F x fx (t / 2) (S stalled)
    end.

Definition fsolve_damped (F : float -> float) (x0 : float) : solution :=
  damped 400 F x0 (F x0) 1 0.

(** A random source that replays standard normal deviates drawn beforehand. *)
Definition rng : Type := list float.

Definition normalvariate (mu sigma : float) (g : rng) : float * rng :=
  match g with
  | z :: g' => (mu + z * sigma, g')
  | [] => (mu, [])
  end.

(** [x ** 2] on Python floats: the square, or OverflowError ([None]) when a
    finite [x] has an infinite square. *)
Definition pow2 (x : float) : option float :=
  let r := x * x in
  if (abs x <? infinity) && (r =? infinity) then None else Some r.

(** ASCII counterparts of [str.strip] and [str.lower]. *)
Definition is_space (c : Ascii.ascii) : bool :=
  let n := Ascii.nat_of_ascii c in
  ((9 <=? n) && (n <=? 13) || (28 <=? n) && (n <=? 32))%nat.

Fixpoint lstrip (s : string) : string :=
  match s with
  | String c s' => if is_space c then lstrip s' else s
  | EmptyString => EmptyString
  end.

Fixpoint rstrip (s : string) : string :=
  match s with
  | String c s' =>
      match rstrip s' with
      | EmptyString => if is_space c then EmptyString else String c EmptyString
      | r => String c r
      end
  | EmptyString => EmptyString
  end.

Definition strip (s : string) : string := rstrip (lstrip s).

Definition lower_char (c : Ascii.ascii) : Ascii.ascii :=
  let n := Ascii.nat_of_ascii c in
  if ((65 <=? n) && (n <=? 90))%nat then Ascii.ascii_of_nat (n + 32) else c.

Fixpoint lower (s : string) : string :=
  match s with
  | String c s' => String (lower_char c) (lower s')
  | EmptyString => EmptyString
  end.

(** A reader of plain decimals, [-]digits[.digits], for [float]; [None]
    for everything else. *)
Fixpoint read_digits (s : string) (acc : Z) (scale : Z) (frac : bool)
    : option (Z * Z) :=
  match s with
  | EmptyString => Some (acc, scale)
  | String c s' =>
      let n := Z.of_nat (Ascii.nat_of_ascii c) in
      if ((48 <=? n) && (n <=? 57))%Z then
        read_digits s' (10 * acc + (n - 48))%Z (if frac then 10 * scale else scale)%Z frac
      else if (n =? 46)%Z && negb frac then read_digits s' acc scale true
      else None
  end.

Definition read_float (s : string) : option float :=
  match s with
  | EmptyString => None
  | String "-"%char s' =>
      match read_digits s' 0 1 false with
      | Some (n, d) => Some (- (of_Z n / of_Z d))
      | None => None
      end
  | _ =>
      match read_digits s 0 1 false with
      | Some (n, d) => Some (of_Z n / of_Z d)
      | None => None
      end
  end.

End Reference.

Section Program.

(** ** External routines *)

(** [np.log10] and [np.power] on binary64. *)
Variable np_log10 : float -> float.
Variable np_power : float -> float -> float.

(** [scipy.optimize.fsolve func x0] for a scalar unknown. *)
Variable fsolve : (float -> float) -> float -> solution.

(** The process-wide random source and [random.normalvariate mu sigma]. *)
Variable rng : Type.
Variable normalvariate : float -> float -> rng -> float * rng.

(** ** State and the monad of the effectful code *)

Record world : Type := { random_state : rng; pyplot : list call }.

Definition M (A : Type) : Type := world -> result A * world.

Definition ret {A} (a : A) : M A := fun w => (Ok a, w).

Definition bind {A B} (m : M A) (k : A -> M B) : M B :=
  fun w => match m w with
           | (Ok a, w') => k a w'
           | (Raise e, w') => (Raise e, w')
           end.

Definition lift {A} (r : result A) : M A := fun w => (r, w).

Notation "x <- m ;; k" := (bind m (fun x => k))
  (at level 61, m at next level, right associativity).
Notation "m ;; k" := (bind m (fun _ => k))
  (at level 61, right associativity).

(** The world after some more calls to the toolkit. *)
Definition emit (cs : list call) (w : world) : world :=
  {| random_state := random_state w; pyplot := pyplot w ++ cs |}.

(** One call to the toolkit. *)
Definition plt (c : call) : M unit := fun w => (Ok tt, emit [c] w).

(** [rnd.normalvariate(mu, sigma)]. *)
Definition rnd_normalvariate (mu sigma : float) : M float :=
  fun w => let (x, g) := normalvariate mu sigma (random_state w) in
           (Ok x, {| random_state := g; pyplot := pyplot w |}).

(** A [for] loop over a list. *)
Fixpoint for_ {A} (l : list A) (body : A -> M unit) : M unit :=
  match l with
  | [] => ret tt
  | x :: l' => body x ;; for_ l' body
  end.

(** [np.logspace(start, stop, num)], base 10. *)
Definition logspace (start stop : float) (num : nat) : list float :=
  map (np_power 10) (linspace start stop num).

(** ** hw5a.py *)

(** The lambda [cb] of [ff]: the Colebrook residual at [f]. *)
Definition cb (Re rr : float) (f : float) : float :=
  1 / sqrt (abs f) + 2.0 * np_log10 (rr / 3.7 + 2.51 / (Re * sqrt (abs f))).

Definition ff (Re : number) (rr : float) (CBEQN : bool) : result float :=
  if CBEQN then
    let result := fsolve (cb (value Re) rr) (py_max 0.02 1e-5) in
    Ok (sol_x result)
  else
    truediv 64 Re.

(** The Colebrook relation as the specification writes it, on [f] itself
    where [cb] takes [abs(f)]. *)
Definition colebrook (Re rr f : float) : float :=
  1 / sqrt f + 2 * np_log10 (rr / 3.7 + 2.51 / (Re * sqrt f)).

(** Whether a run of [ff] makes [fsolve] issue its RuntimeWarning. *)
Definition ff_warns (Re : number) (rr : float) (CBEQN : bool) : bool :=
  if CBEQN then fsolve_warns (fsolve (cb (value Re) rr) (py_max 0.02 1e-5))
  else false.

(** [xs] holds [n] points evenly spaced on a logarithmic scale from [a] to
    [b]: the powers of ten of [n] exponents evenly spaced from [log10(a)]
    to [log10(b)], the last exponent being [log10(b)] itself. *)
Definition log_spaced (a b : float) (n : nat) (xs : list float) : Prop :=
  length xs = n /\
  (forall i, (i < n - 1)%nat ->
     nth i xs 0 = np_power 10 (evenly (np_log10 a) (np_log10 b) n i)) /\
  nth (n - 1) xs 0 = np_power 10 (np_log10 b).

(** The twenty relative roughnesses of the diagram. *)
Definition rrVals : list float :=
  [0; 1E-6; 5E-6; 1E-5; 5E-5; 1E-4; 2E-4; 4E-4; 6E-4; 8E-4;
   1E-3; 2E-3; 4E-3; 6E-3; 8E-3; 1.5E-2; 2E-2; 3E-2; 4E-2; 5E-2].

Definition ReValsCB : list float := logspace (np_log10 4000) (np_log10 1e8) 100.
Definition ReValsL : list float := logspace (np_log10 600.0) (np_log10 2000.0) 20.
Definition ReValsTrans : list float := logspace (np_log10 2000.0) (np_log10 4000.0) 50.

(** The loop body of step 5: one turbulent curve and its annotation. *)
Definition plot_turbulent (ffCB : list (list float)) (nRelR : nat) : M unit :=
  row <- lift (index ffCB nRelR) ;;
  plt (loglog ReValsCB row "k-") ;;
  x <- lift (index_last ReValsCB) ;;
  row' <- lift (index ffCB nRelR) ;;
  y <- lift (index_last row') ;;
  r <- lift (index rrVals nRelR) ;;
  plt (annotate (x, y) (FSci 2 r)).

Definition plotMoody (plotPoint : bool) (pt : float * float) (marker : string)
    (markersize : float) (markeredgecolor markerfacecolor : string)
    (label : option fstring) (clear_plot : bool) : M unit :=
  ffLam <- lift (comprehension (fun Re => ff (NpFloat64 Re) 0 false) ReValsL) ;;
  ffTrans <- lift (comprehension (fun Re => ff (NpFloat64 Re) 0 false) ReValsTrans) ;;
  ffCB <- lift (comprehension
                  (fun rr => comprehension (fun Re => ff (NpFloat64 Re) rr true) ReValsCB)
                  rrVals) ;;
  plt (figure 10 8) ;;
  plt (loglog ReValsL ffLam "b-") ;;
  plt (loglog ReValsTrans ffTrans "b--") ;;
  for_ (seq 0 (length ffCB)) (plot_turbulent ffCB) ;;
  plt (xlim 600 1E8) ;;
  plt (ylim 0.008 0.10) ;;
  plt (xlabel "Reynolds number $Re$" 16) ;;
  plt (ylabel "Friction factor $f$" 16) ;;
  plt (text 2.5E8 0.02 "Relative roughness $\frac{\epsilon}{d}$" 90 16) ;;
  plt (tick_params [("axis"%string, KStr "both"); ("which"%string, KStr "both");
                    ("direction"%string, KStr "in"); ("top"%string, KBool true);
                    ("right"%string, KBool true); ("labelsize"%string, KNum 12)]) ;;
  plt (tick_params [("axis"%string, KStr "both"); ("grid_linewidth"%string, KNum 1);
                    ("grid_linestyle"%string, KStr "solid");
                    ("grid_alpha"%string, KNum 0.5)]) ;;
  plt (tick_params [("axis"%string, KStr "y"); ("which"%string, KStr "minor")]) ;;
  plt (set_minor_formatter "y" "%.3f") ;;
  plt (grid "both") ;;
  if plotPoint then
    plt (plot (fst pt) (snd pt) marker markersize markeredgecolor markerfacecolor label)
  else ret tt.

(** ** hw5b.py *)

Definition ffPoint (Re : number) (rr : float) : M float :=
  if 4000 <=? value Re then lift (ff Re rr true)
  else if value Re <=? 2000 then lift (ff Re rr false)
  else
    CBff <- lift (ff (PyFloat 4000) rr true) ;;
    Lamff <- lift (ff (PyFloat 2000) rr false) ;;
    let mean := (CBff + Lamff) / 2 in
    let sig := 0.2 * mean in
    rnd_normalvariate mean sig.

(** A plotted point: [(Re, f, is_transition, rr)]. *)
Definition point : Type := float * float * bool * float.

Definition PlotPoint (points : list point) : M unit :=
  plotMoody false (0, 0) "o" 10 "red" "none" None true ;;
  for_ points (fun '(Re, f, is_transition, rr) =>
    let marker := (if is_transition : bool then "^" else "o")%string in
    let label := FCat (FLit "Re=") (FCat (FSci 2 Re) (FCat (FLit ", rr=") (FSci 2 rr))) in
    plt (plot Re f marker 10 "red" "none" (Some label))) ;;
  plt (legend "Re, rr - First to Last" "best") ;;
  plt show.

(** ** The sessions of the two [main] functions *)

(** The built-ins the sessions use: [float(s)] ([None] for ValueError),
    [x ** 2] on Python floats ([None] for OverflowError), [str.strip] and
    [str.lower]. *)
Variable py_float : string -> option float.
Variable py_pow2 : float -> option float.
Variable str_strip : string -> string.
Variable str_lower : string -> string.

(** The world together with the lines still to be read from the standard
    input and what has been written to the standard output. *)
Record session : Type :=
  { machine : world; stdin : list string; stdout : list printed }.

Definition IO (A : Type) : Type := session -> outcome A * session.

Definition io_ret {A} (a : A) : IO A := fun s => (Done a, s).

Definition io_fail {A} (e : error) : IO A := fun s => (Fail e, s).

Definition io_bind {A B} (m : IO A) (k : A -> IO B) : IO B :=
  fun s => match m s with
           | (Done a, s') => k a s'
           | (Fail e, s') => (Fail e, s')
           end.

Notation "x <-- m ;; k" := (io_bind m (fun x => k))
  (at level 61, m at next level, right associativity).

(** A computation of the functions above, run inside a session. *)
Definition run {A} (m : M A) : IO A :=
  fun s =>
    let (r, w) := m (machine s) in
    (match r with Ok a => Done a | Raise e => Fail (Exn e) end,
     {| machine := w; stdin := stdin s; stdout := stdout s |}).

Definition io_lift {A} (r : result A) : IO A :=
  match r with Ok a => io_ret a | Raise e => io_fail (Exn e) end.

Definition write (p : printed) : IO unit :=
  fun s => (Done tt,
            {| machine := machine s; stdin := stdin s; stdout := stdout s ++ [p] |}).

(** [input(prompt)]: the prompt is written, then a line is read;
    EOFError when there is none. *)
Definition input (prompt : string) : IO string :=
  fun s =>
    let out := stdout s ++ [Prompt prompt] in
    match stdin s with
    | [] => (Fail EOFError, {| machine := machine s; stdin := []; stdout := out |})
    | l :: ls => (Done l, {| machine := machine s; stdin := ls; stdout := out |})
    end.

(** [float(s)]. *)
Definition to_float (s : string) : IO float :=
  match py_float s with Some x => io_ret x | None => io_fail ValueError end.

(** hw5a.py: [main].  The test is [create_chart == 'yes' or 'y' or 'Yes']. *)
Definition hw5a_main : IO unit :=
  create_chart <-- input "Do you want to print a blank Moody Chart? (yes/no): " ;;
  if truthy (py_or (py_or (VBool (String.eqb create_chart "yes")) (VStr "y")) (VStr "Yes"))
  then
    u <-- run (plotMoody false (0, 0) "o" 10 "red" "none" None false) ;;
    run (plt show)
  else
    write (Line "Did not create a blank Moody Chart").

(** The product [f * x] keeps the kind of [f]. *)
Definition times (f : number) (x : float) : number :=
  match f with
  | PyFloat a => PyFloat (a * x)
  | NpFloat64 a => NpFloat64 (a * x)
  end.

Definition calculate_head_loss_per_foot (f : number) (D V : float) : outcome float :=
  let g := 32.2 in
  let D_ft := D / 12 in
  match py_pow2 V with
  | None => Fail OverflowError
  | Some V2 =>
      match truediv_by (times f V2) (D_ft * 2 * g) with
      | Ok hf_L => Done hf_L
      | Raise e => Fail (Exn e)
      end
  end.

(** The kind of number [ffPoint] returns for a Python float [Re]: the
    Python float [64/Re] from the laminar branch, a numpy float64 from the
    root-finder and from the draw around a numpy mean. *)
Definition returned (Re f : float) : number :=
  if 4000 <=? Re then NpFloat64 f
  else if Re <=? 2000 then PyFloat f
  else NpFloat64 f.

(** hw5b.py: one pass of the loop of [main], up to the point it stores. *)
Definition main_iteration : IO point :=
  sD <-- input "Enter the pipe diameter in inches: " ;;
  D <-- to_float sD ;;
  sE <-- input "Enter the pipe roughness in micro-inches: " ;;
  epsilon <-- to_float sE ;;
  sQ <-- input "Enter the flow rate in gallons per minute: " ;;
  Q <-- to_float sQ ;;
  let epsilon_m := epsilon * 1e-6 in
  rr <-- io_lift (truediv epsilon_m (PyFloat D)) ;;
  let Q_cfs := Q * 0.002228 in
  D_ft2 <-- match py_pow2 (D / 12) with
            | Some p => io_ret p
            | None => io_fail OverflowError
            end ;;
  let A := 3.14159 * D_ft2 / 4 in
  V <-- io_lift (truediv Q_cfs (PyFloat A)) ;;
  let rho := 1.94 in
  let mu := 2.34e-5 in
  let Re := rho * V * (D / 12) / mu in
  let is_transition := (2000 <? Re) && (Re <? 4000) in
  f <-- run (ffPoint (PyFloat Re) rr) ;;
  hf_L <-- (fun s => (calculate_head_loss_per_foot (returned Re f) D V, s)) ;;
  u <-- write (HeadLossLine hf_L) ;;
  io_ret (Re, f, is_transition, rr).

(** hw5b.py: the loop of [main].  Every pass reads from the standard
    input, so more passes than there are lines left cannot complete; the
    loop is unfolded that many times, and once more. *)
Fixpoint main_loop (passes : nat) (points : list point) : IO (list point) :=
  match passes with
  | O => io_fail EOFError
  | S passes' =>
      p <-- main_iteration ;;
      let points := points ++ [p] in
      answer <-- input "Do you want to continue adding parameters? (yes/no): " ;;
      let repeat := str_lower (str_strip answer) in
      if negb (String.eqb repeat "yes") then io_ret points
      else main_loop passes' points
  end.

Definition hw5b_main : IO unit :=
  fun s =>
    (points <-- main_loop (S (length (stdin s))) [] ;;
     run (PlotPoint points)) s.

(** A completed pass of the loop of [hw5b.main], told from the lines it
    reads: the point it stores and the session it leaves. *)
Definition completed_pass (s : session) (p : point) (s' : session) : Prop :=
  exists sD sE sQ D epsilon Q D_ft2 hf_L,
    let rr := epsilon * 1e-6 / D in
    let A := 3.14159 * D_ft2 / 4 in
    let V := Q * 0.002228 / A in
    let Re := 1.94 * V * (D / 12) / 2.34e-5 in
    exists f,
      stdin s = sD :: sE :: sQ :: stdin s' /\
      py_float sD = Some D /\ py_float sE = Some epsilon /\ py_float sQ = Some Q /\
      (D =? 0) = false /\ py_pow2 (D / 12) = Some D_ft2 /\ (A =? 0) = false /\
      ffPoint (PyFloat Re) rr (machine s) = (Ok f, machine s') /\
      calculate_head_loss_per_foot (returned Re f) D V = Done hf_L /\
      stdout s' =
        stdout s ++ [Prompt "Enter the pipe diameter in inches: ";
                     Prompt "Enter the pipe roughness in micro-inches: ";
                     Prompt "Enter the flow rate in gallons per minute: ";
                     HeadLossLine hf_L] /\
      p = (Re, f, (2000 <? Re) && (Re <? 4000), rr).

(** The session after the user has answered the question that ends a
    pass. *)
Definition answered (s : session) (answer : string) (s' : session) : Prop :=
  stdin s = answer :: stdin s' /\
  machine s' = machine s /\
  stdout s' =
    stdout s ++ [Prompt "Do you want to continue adding parameters? (yes/no): "].

(** The passes of a session, in order: every answer but the last is "yes"
    once stripped and lowered. *)
Inductive passes_run : session -> list point -> session -> Prop :=
| last_pass (s s1 s2 : session) (p : point) (answer : string) :
    completed_pass s p s1 ->
    answered s1 answer s2 ->
    str_lower (str_strip answer) <> "yes"%string ->
    passes_run s [p] s2
| next_pass (s s1 s2 s' : session) (p : point) (points : list point)
    (answer : string) :
    completed_pass s p s1 ->
    answered s1 answer s2 ->
    str_lower (str_strip answer) = "yes"%string ->
    passes_run s2 points s' ->
    passes_run s (p :: points) s'.

(** ** Order of binary64 values

    The comparisons of the source are those of IEEE 754; their properties
    come from the specification of the primitive operations. *)

Lemma SFcompare_antisym (x y : spec_float) :
  SFcompare y x = option_map CompOpp (SFcompare x y).
Proof.
  destruct x as [sx | sx | | sx mx ex], y as [sy | sy | | sy my ey];
    try destruct sx; try destruct sy; try reflexivity; simpl;
    rewrite (Z.compare_antisym ex ey); destruct (ex ?= ey)%Z; simpl; try reflexivity;
    rewrite !Pos.compare_cont_spec; simpl; rewrite (Pos.compare_antisym mx my);
    now destruct (mx ?= my)%positive.
Qed.

Lemma SFleb_trans (x y z : spec_float) :
  SFleb x y = true -> SFleb y z = true -> SFleb x z = true.
Proof.
  unfold SFleb.
  destruct x as [sx | sx | | sx mx ex], y as [sy | sy | | sy my ey],
           z as [sz | sz | | sz mz ez];
    try destruct sx; try destruct sy; try destruct sz; simpl;
    try reflexivity; try discriminate;
    rewrite ?Pos.compare_cont_spec; simpl;
    destruct (Z.compare_spec ex ey), (Z.compare_spec ey ez), (Z.compare_spec ex ez);
    subst; try lia; try discriminate; try reflexivity; simpl;
    destruct (Pos.compare_spec mx my), (Pos.compare_spec my mz), (Pos.compare_spec mx mz);
    subst; simpl; try lia; try discriminate; try reflexivity.
Qed.

Ltac to_spec :=
  rewrite ?ltb_spec, ?leb_spec, ?eqb_spec in *; unfold SFltb, SFleb, SFeqb in *.

Lemma leb_trans (x y z : float) :
  (x <=? y) = true -> (y <=? z) = true -> (x <=? z) = true.
Proof. rewrite !leb_spec. apply SFleb_trans. Qed.

Lemma ltb_leb (x y : float) : (x <? y) = true -> (x <=? y) = true.
Proof. to_spec. now destruct (SFcompare _ _) as [[]|]. Qed.

Lemma ltb_not_leb (x y : float) : (x <? y) = true -> (y <=? x) = false.
Proof.
  to_spec. rewrite (SFcompare_antisym (Prim2SF x) (Prim2SF y)).
  now destruct (SFcompare _ _) as [[]|].
Qed.

Lemma ltb_not_eqb (x y : float) :
  (x <? y) = true -> (x =? y) = false /\ (y =? x) = false.
Proof.
  to_spec. rewrite (SFcompare_antisym (Prim2SF x) (Prim2SF y)).
  now destruct (SFcompare _ _) as [[]|].
Qed.

Lemma eqb_leb (x y : float) :
  (x =? y) = true -> (x <=? y) = true /\ (y <=? x) = true.
Proof.
  to_spec. rewrite (SFcompare_antisym (Prim2SF x) (Prim2SF y)).
  now destruct (SFcompare _ _) as [[]|].
Qed.

(** Two values that are not NaN are comparable. *)
Lemma not_leb_ltb (x y : float) :
  (x =? x) = true -> (y =? y) = true -> (y <=? x) = false -> (x <? y) = true.
Proof.
  to_spec. rewrite (SFcompare_antisym (Prim2SF x) (Prim2SF y)).
  destruct (Prim2SF x) as [sx | sx | | sx mx ex], (Prim2SF y) as [sy | sy | | sy my ey];
    try discriminate; intros _ _;
    match goal with
    | |- context [SFcompare ?a ?b] =>
        assert (exists c, SFcompare a b = Some c) as [c ->] by (simpl; eauto)
    end; now destruct c.
Qed.

Lemma not_ltb_leb (x y : float) :
  (x =? x) = true -> (y =? y) = true -> (x <? y) = false -> (y <=? x) = true.
Proof.
  intros Hx Hy H. destruct (y <=? x) eqn:E; [reflexivity|].
  now rewrite (not_leb_ltb x y Hx Hy E) in H.
Qed.

Lemma ltb_ordered (x y : float) :
  (x <? y) = true -> (x =? x) = true /\ (y =? y) = true.
Proof.
  to_spec.
  destruct (Prim2SF x) as [sx | sx | | sx mx ex], (Prim2SF y) as [sy | sy | | sy my ey];
    try discriminate; intros _; simpl;
    try destruct sx; try destruct sy; simpl; rewrite ?Z.compare_refl, ?Pos.compare_cont_refl;
    auto.
Qed.

Lemma leb_2000_not_4000 (x : float) : (x <=? 2000) = true -> (4000 <=? x) = false.
Proof.
  intros H. destruct (4000 <=? x) eqn:E; [|reflexivity].
  now pose proof (leb_trans _ _ _ E H).
Qed.

(** ** The engine *)

Lemma py_max_guess : py_max 0.02 1e-5 = 0.02.
Proof. reflexivity. Qed.

Lemma ff_turbulent (Re : number) (rr : float) :
  ff Re rr true = Ok (sol_x (fsolve (cb (value Re) rr) 0.02)).
Proof. reflexivity. Qed.

Lemma ff_laminar (Re : number) (rr : float) : ff Re rr false = truediv 64 Re.
Proof. reflexivity. Qed.

Lemma truediv_nonzero (a : float) (Re : number) :
  (value Re =? 0) = false -> truediv a Re = Ok (a / value Re).
Proof. destruct Re as [x | x]; simpl; intros H; [now rewrite H | reflexivity]. Qed.

Lemma ffPoint_turbulent (Re : number) (rr : float) (w : world) :
  (4000 <=? value Re) = true -> ffPoint Re rr w = (ff Re rr true, w).
Proof. intros H. unfold ffPoint. now rewrite H. Qed.

Lemma ffPoint_laminar (Re : number) (rr : float) (w : world) :
  (value Re <=? 2000) = true -> ffPoint Re rr w = (ff Re rr false, w).
Proof.
  intros H. unfold ffPoint. now rewrite (leb_2000_not_4000 _ H), H.
Qed.

Lemma ffPoint_draw (Re : number) (rr : float) (w : world) :
  (2000 <? value Re) = true -> (value Re <? 4000) = true ->
  ffPoint Re rr w =
    rnd_normalvariate ((sol_x (fsolve (cb 4000 rr) 0.02) + 64 / 2000) / 2)
      (0.2 * ((sol_x (fsolve (cb 4000 rr) 0.02) + 64 / 2000) / 2)) w.
Proof.
  intros H1 H2. unfold ffPoint.
  now rewrite (ltb_not_leb _ _ H2), (ltb_not_leb _ _ H1).
Qed.

(** Outside the open interval a positive Reynolds number is on one of the
    two deterministic sides. *)
Lemma outside_transitional (x : float) :
  (0 <? x) = true -> (2000 <? x) && (x <? 4000) = false ->
  (4000 <=? x) = true \/ (x <=? 2000) = true.
Proof.
  intros H0 H. destruct (ltb_ordered _ _ H0) as [_ Hx].
  apply andb_false_iff in H. destruct H as [H | H].
  - right. now apply not_ltb_leb.
  - left. now apply not_ltb_leb.
Qed.

(** C1: for a positive Reynolds number [ffPoint] returns the turbulent
    result [ff(Re, rr, CBEQN=True)] when [Re >= 4000] and the laminar result
    [ff(Re, rr)] when [Re <= 2000], both without touching the random
    source; it draws from the random source when [2000 < Re < 4000], and
    only then: outside the interval the result is that of the
    deterministic branch and the world is unchanged. *)
Theorem ffPoint_dispatch (Re : number) (rr : float) (w : world) :
  (0 <? value Re) = true ->
  ((4000 <=? value Re) = true -> ffPoint Re rr w = (ff Re rr true, w)) /\
  ((value Re <=? 2000) = true -> ffPoint Re rr w = (ff Re rr false, w)) /\
  ((2000 <? value Re) && (value Re <? 4000) = true ->
     exists mean sig, ffPoint Re rr w = rnd_normalvariate mean sig w) /\
  ((2000 <? value Re) && (value Re <? 4000) = false ->
     ffPoint Re rr w = (ff Re rr (4000 <=? value Re), w)).
Proof.
  intros Hpos. repeat split.
  - apply ffPoint_turbulent.
  - apply ffPoint_laminar.
  - intros H. apply andb_true_iff in H. destruct H as [H1 H2].
    eexists. eexists. now apply ffPoint_draw.
  - intros H. destruct (outside_transitional _ Hpos H) as [Ht | Hl].
    + rewrite Ht. now apply ffPoint_turbulent.
    + rewrite (leb_2000_not_4000 _ Hl). now apply ffPoint_laminar.
Qed.

(** C2: for [0 < Re <= 2000] and any [rr], [ff] without [CBEQN] and
    [ffPoint] return exactly [64/Re]: the value mentions neither [rr] nor
    the root-finder, and the world is left as it was. *)
Theorem laminar_exact (Re : number) (rr : float) (w : world) :
  (0 <? value Re) = true -> (value Re <=? 2000) = true ->
  ff Re rr false = Ok (64 / value Re) /\
  ffPoint Re rr w = (Ok (64 / value Re), w).
Proof.
  intros Hpos Hle.
  assert (ff Re rr false = Ok (64 / value Re)) as E.
  { rewrite ff_laminar. apply truediv_nonzero. now apply ltb_not_eqb. }
  split; [exact E|]. now rewrite ffPoint_laminar, E.
Qed.

(** C4: for [2000 < Re < 4000], [ffPoint] returns one draw of
    [normalvariate mean (0.2 * mean)] with [mean = (CBf + Lf) / 2], where
    [CBf] is [ff(4000, rr, CBEQN=True)] and [Lf] is [ff(2000, rr)], that is
    [64/2000]; a second Reynolds number [Re'] of the interval yields the
    same computation. *)
Theorem ffPoint_transitional (Re Re' : number) (rr : float) (w : world) :
  (2000 <? value Re) = true -> (value Re <? 4000) = true ->
  (2000 <? value Re') = true -> (value Re' <? 4000) = true ->
  exists CBf Lf,
    ff (PyFloat 4000) rr true = Ok CBf /\
    ff (PyFloat 2000) rr false = Ok Lf /\
    Lf = 64 / 2000 /\
    ffPoint Re rr w =
      (let mean := (CBf + Lf) / 2 in
       let (x, g) := normalvariate mean (0.2 * mean) (random_state w) in
       (Ok x, {| random_state := g; pyplot := pyplot w |})) /\
    ffPoint Re' rr w = ffPoint Re rr w.
Proof.
  intros H1 H2 H1' H2'.
  exists (sol_x (fsolve (cb 4000 rr) 0.02)), (64 / 2000).
  repeat split.
  - now rewrite (ffPoint_draw Re rr w H1 H2).
  - now rewrite (ffPoint_draw Re rr w H1 H2), (ffPoint_draw Re' rr w H1' H2').
Qed.

(** C5, as the code has it: when the root-finder does not converge
    (statuses 2 to 5), nothing in the engine notices.  [ff] returns the
    last iterate as an ordinary value, and so does [ffPoint] on the
    turbulent side; the one signal is the RuntimeWarning that [fsolve]
    itself issues. *)
Theorem ff_returns_unchecked_iterate (Re : number) (rr : float) (w : world) :
  fsolve_warns (fsolve (cb (value Re) rr) (py_max 0.02 1e-5)) = true ->
  ff Re rr true = Ok (sol_x (fsolve (cb (value Re) rr) (py_max 0.02 1e-5))) /\
  ((4000 <=? value Re) = true ->
   ffPoint Re rr w = (Ok (sol_x (fsolve (cb (value Re) rr) (py_max 0.02 1e-5))), w)) /\
  ff_warns Re rr true = true.
Proof.
  intros Hw. split; [reflexivity|]. split; [|exact Hw].
  intros H. now rewrite ffPoint_turbulent.
Qed.

(** C6, as the code has it: a Reynolds number [Re <= 0] given as a Python
    float is not rejected beforehand.  [ffPoint] takes the laminar branch
    and divides: a negative [Re] yields the value [64/Re], and [Re = 0]
    makes the division itself raise ZeroDivisionError. *)
Theorem ffPoint_nonpositive_Re (x rr : float) (w : world) :
  (x <=? 0) = true ->
  ffPoint (PyFloat x) rr w =
    (if x =? 0 then Raise ZeroDivisionError else Ok (64 / x), w).
Proof.
  intros H.
  assert ((x <=? 2000) = true) as Hl by (now apply (leb_trans x 0 2000)).
  now rewrite (ffPoint_laminar (PyFloat x) rr w Hl).
Qed.

(** C7, as the code has it: a relative roughness outside [[0, 0.05]] is
    neither rejected nor clamped.  The laminar branch ignores it, the
    turbulent branch hands the root-finder the Colebrook residual with
    that very [rr], and [ffPoint] returns a value for every positive [Re]. *)
Theorem ff_roughness_unchecked (Re : number) (rr : float) (w : world) :
  (rr <? 0) = true \/ (0.05 <? rr) = true ->
  ff Re rr false = truediv 64 Re /\
  ff Re rr true =
    Ok (sol_x (fsolve (fun f => 1 / sqrt (abs f) +
                 2.0 * np_log10 (rr / 3.7 + 2.51 / (value Re * sqrt (abs f)))) 0.02)) /\
  ((0 <? value Re) = true -> exists f w', ffPoint Re rr w = (Ok f, w')).
Proof.
  intros _. repeat split. intros Hpos.
  destruct ((2000 <? value Re) && (value Re <? 4000)) eqn:E.
  - apply andb_true_iff in E. destruct E as [H1 H2].
    rewrite (ffPoint_draw Re rr w H1 H2). unfold rnd_normalvariate.
    destruct (normalvariate _ _ _) as [f g]. eauto.
  - destruct (outside_transitional _ Hpos E) as [Ht | Hl].
    + rewrite (ffPoint_turbulent Re rr w Ht), ff_turbulent. eauto.
    + rewrite (ffPoint_laminar Re rr w Hl), ff_laminar, truediv_nonzero
        by (now apply ltb_not_eqb).
      eauto.
Qed.

(** ** Arrays *)

Lemma length_set_last (l : list float) (v : float) :
  l <> [] -> length (set_last l v) = length l.
Proof.
  intros Hl. unfold set_last. rewrite <- (length_rev l).
  destruct (rev l) as [|a r] eqn:E.
  - apply (f_equal (@rev float)) in E. rewrite rev_involutive in E. now destruct Hl.
  - rewrite length_app, length_rev. simpl. lia.
Qed.

Lemma index_last_set_last (l : list float) (v : float) :
  l <> [] -> index_last (set_last l v) = Ok v.
Proof.
  intros Hl. unfold set_last, index_last.
  destruct (rev l) as [|a r] eqn:E.
  - apply (f_equal (@rev float)) in E. rewrite rev_involutive in E. now destruct Hl.
  - now rewrite rev_app_distr, rev_involutive.
Qed.

Lemma index_last_map {A B} (g : A -> B) (l : list A) (x : A) :
  index_last l = Ok x -> index_last (map g l) = Ok (g x).
Proof.
  unfold index_last. rewrite <- map_rev.
  destruct (rev l); simpl; [discriminate|]. now intros [= ->].
Qed.

Lemma length_linspace (start stop : float) (num : nat) :
  length (linspace start stop num) = num.
Proof.
  unfold linspace.
  set (y := map (fun v => v + start) _).
  assert (length y = num) as Hy.
  { unfold y. rewrite length_map.
    destruct (0 <? num - 1)%nat; [destruct (_ =? 0)|];
      now rewrite !length_map, length_seq. }
  destruct (1 <? num)%nat eqn:E; [|exact Hy].
  rewrite length_set_last; [exact Hy|].
  apply Nat.ltb_lt in E. destruct y; [simpl in Hy; lia | discriminate].
Qed.

Lemma index_last_linspace (start stop : float) (num : nat) :
  (1 < num)%nat -> index_last (linspace start stop num) = Ok stop.
Proof.
  intros Hn. unfold linspace.
  set (y := map (fun v => v + start) _).
  assert (length y = num) as Hy.
  { unfold y. rewrite length_map.
    destruct (0 <? num - 1)%nat; [destruct (_ =? 0)|];
      now rewrite !length_map, length_seq. }
  apply Nat.ltb_lt in Hn. rewrite Hn.
  apply index_last_set_last. apply Nat.ltb_lt in Hn.
  destruct y; [simpl in Hy; lia | discriminate].
Qed.

Lemma length_logspace (start stop : float) (num : nat) :
  length (logspace start stop num) = num.
Proof. unfold logspace. now rewrite length_map, length_linspace. Qed.

Lemma index_last_logspace (start stop : float) (num : nat) :
  (1 < num)%nat -> index_last (logspace start stop num) = Ok (np_power 10 stop).
Proof.
  intros Hn. unfold logspace. apply index_last_map. now apply index_last_linspace.
Qed.

Lemma comprehension_ok {A B} (f : A -> result B) (g : A -> B) (l : list A) :
  (forall x, f x = Ok (g x)) -> comprehension f l = Ok (map g l).
Proof.
  intros H. induction l as [|x l IH]; simpl; [reflexivity|].
  now rewrite H, IH.
Qed.

(** ** The log of toolkit calls *)

Lemma emit_nil (w : world) : emit [] w = w.
Proof. destruct w. unfold emit. simpl. now rewrite app_nil_r. Qed.

Lemma emit_emit (cs cs' : list call) (w : world) :
  emit cs' (emit cs w) = emit (cs ++ cs') w.
Proof. unfold emit. simpl. now rewrite app_assoc. Qed.

Lemma for_emit {A} (body : A -> M unit) (g : A -> list call) (l : list A) :
  (forall x w, In x l -> body x w = (Ok tt, emit (g x) w)) ->
  forall w, for_ l body w = (Ok tt, emit (flat_map g l) w).
Proof.
  induction l as [|x l IH]; intros H w; simpl.
  - unfold ret. now rewrite emit_nil.
  - unfold bind. rewrite (H x w) by now left.
    rewrite IH by (intros; apply H; now right).
    now rewrite emit_emit.
Qed.

(** ** The chart *)

(** The turbulent curve of one roughness. *)
Lemma ffCB_rows :
  comprehension (fun rr => comprehension (fun Re => ff (NpFloat64 Re) rr true) ReValsCB)
    rrVals =
  Ok (map (fun rr => map (fun Re => sol_x (fsolve (cb Re rr) 0.02)) ReValsCB) rrVals).
Proof.
  apply comprehension_ok with
    (g := fun rr => map (fun Re => sol_x (fsolve (cb Re rr) 0.02)) ReValsCB).
  intros rr. now apply comprehension_ok.
Qed.

Lemma ff_laminar_row (l : list float) :
  comprehension (fun Re => ff (NpFloat64 Re) 0 false) l = Ok (map (fun Re => 64 / Re) l).
Proof. now apply comprehension_ok. Qed.

Lemma index_last_ReValsCB : index_last ReValsCB = Ok (np_power 10 (np_log10 1e8)).
Proof. apply index_last_logspace. lia. Qed.

Lemma plot_turbulent_run (F : float -> float -> float) (i : nat) (r : float) (w : world) :
  nth_error rrVals i = Some r ->
  plot_turbulent (map (fun rr => map (fun Re => F Re rr) ReValsCB) rrVals) i w =
    (Ok tt,
     emit [loglog ReValsCB (map (fun Re => F Re r) ReValsCB) "k-";
           annotate (np_power 10 (np_log10 1e8), F (np_power 10 (np_log10 1e8)) r)
                    (FSci 2 r)] w).
Proof.
  intros Hr. unfold plot_turbulent, bind, lift, index.
  rewrite (map_nth_error _ _ _ Hr), Hr, index_last_ReValsCB.
  rewrite (index_last_map (fun Re => F Re r) _ _ index_last_ReValsCB).
  unfold plt. now rewrite emit_emit.
Qed.

(** The loop of step 5 draws, for each roughness in turn, its curve and
    the annotation at the end of the curve. *)
Lemma turbulent_loop (w : world) :
  let F := fun Re rr => sol_x (fsolve (cb Re rr) 0.02) in
  let rows := map (fun rr => map (fun Re => F Re rr) ReValsCB) rrVals in
  for_ (seq 0 (length rows)) (plot_turbulent rows) w =
    (Ok tt,
     emit (flat_map
             (fun r => [loglog ReValsCB (map (fun Re => F Re r) ReValsCB) "k-";
                        annotate (np_power 10 (np_log10 1e8),
                                  F (np_power 10 (np_log10 1e8)) r) (FSci 2 r)])
             rrVals) w).
Proof.
  intros F rows.
  rewrite for_emit with
    (g := fun i =>
            match nth_error rrVals i with
            | Some r => [loglog ReValsCB (map (fun Re => F Re r) ReValsCB) "k-";
                         annotate (np_power 10 (np_log10 1e8),
                                   F (np_power 10 (np_log10 1e8)) r) (FSci 2 r)]
            | None => []
            end).
  - unfold rows. rewrite length_map.
    generalize ReValsCB (np_power 10 (np_log10 1e8)). intros X xl. reflexivity.
  - intros i w' Hi. apply in_seq in Hi. unfold rows in *. rewrite length_map in Hi.
    destruct (nth_error rrVals i) as [r|] eqn:E.
    + now apply plot_turbulent_run.
    + apply nth_error_None in E. lia.
Qed.

(** One run of [plotMoody]: it raises nothing, leaves the random source
    alone and appends its calls to the log. *)
Lemma plotMoody_run (plotPoint : bool) (pt : float * float) (marker : string)
    (markersize : float) (markeredgecolor markerfacecolor : string)
    (label : option fstring) (clear_plot : bool) (w : world) :
  exists calls,
    plotMoody plotPoint pt marker markersize markeredgecolor markerfacecolor label
      clear_plot w = (Ok tt, emit calls w) /\
    curves "b-" calls = [(ReValsL, map (fun Re => 64 / Re) ReValsL)] /\
    curves "b--" calls = [(ReValsTrans, map (fun Re => 64 / Re) ReValsTrans)] /\
    curves "k-" calls =
      map (fun rr => (ReValsCB, map (fun Re => sol_x (fsolve (cb Re rr) 0.02)) ReValsCB))
        rrVals /\
    last_xlim calls = Some (600, 1E8) /\
    last_ylim calls = Some (0.008, 0.10).
Proof.
  unfold plotMoody, bind, lift.
  rewrite !ff_laminar_row, ffCB_rows.
  unfold plt at 1 2 3. rewrite turbulent_loop.
  unfold plt, ret. rewrite !emit_emit.
  generalize ReValsCB ReValsL ReValsTrans (np_power 10 (np_log10 1e8)).
  intros XCB XL XT xl.
  destruct plotPoint; rewrite ?emit_emit; eexists; (split; [reflexivity|]);
    repeat split; reflexivity.
Qed.

(** The samples of [linspace]. *)
Lemma set_last_app (l : list float) (a v : float) : set_last (l ++ [a]) v = l ++ [v].
Proof. unfold set_last. rewrite rev_app_distr. simpl. now rewrite rev_involutive. Qed.

Lemma linspace_samples (start stop : float) (num : nat) :
  (1 < num)%nat ->
  (forall i, (i < num - 1)%nat ->
     nth i (linspace start stop num) 0 = evenly start stop num i) /\
  nth (num - 1) (linspace start stop num) 0 = stop.
Proof.
  intros Hn. unfold linspace.
  assert ((0 <? num - 1)%nat = true) as -> by (apply Nat.ltb_lt; lia).
  assert ((1 <? num)%nat = true) as -> by (now apply Nat.ltb_lt).
  set (g := fun i : nat =>
              (if (stop - start) / float_of_nat (num - 1) =? 0
               then float_of_nat i / float_of_nat (num - 1) * (stop - start)
               else float_of_nat i * ((stop - start) / float_of_nat (num - 1))) + start).
  assert (map (fun v => v + start)
            (if (stop - start) / float_of_nat (num - 1) =? 0
             then map (fun v => v / float_of_nat (num - 1) * (stop - start))
                    (map float_of_nat (seq 0 num))
             else map (fun v => v * ((stop - start) / float_of_nat (num - 1)))
                    (map float_of_nat (seq 0 num))) = map g (seq 0 num)) as ->.
  { unfold g. destruct (_ =? 0); rewrite !map_map; reflexivity. }
  assert (seq 0 num = seq 0 (num - 1) ++ [(num - 1)%nat]) as ->.
  { change [(num - 1)%nat] with [(0 + (num - 1))%nat].
    rewrite <- (seq_S (num - 1) 0). f_equal. lia. }
  rewrite map_app. simpl. rewrite set_last_app.
  split.
  - intros i Hi.
    rewrite app_nth1 by (now rewrite length_map, length_seq).
    rewrite (nth_indep _ 0 (g 0%nat)) by (now rewrite length_map, length_seq).
    rewrite map_nth, seq_nth by exact Hi. reflexivity.
  - replace (num - 1)%nat with (length (map g (seq 0 (num - 1)))) at 1
      by (now rewrite length_map, length_seq).
    now rewrite nth_middle.
Qed.

Lemma logspace_log_spaced (a b : float) (num : nat) :
  (1 < num)%nat -> log_spaced a b num (logspace (np_log10 a) (np_log10 b) num).
Proof.
  intros Hn. destruct (linspace_samples (np_log10 a) (np_log10 b) num Hn) as [Hi Hl].
  unfold log_spaced, logspace. split; [|split].
  - now rewrite length_map, length_linspace.
  - intros i Hlt.
    rewrite (nth_indep _ 0 (np_power 10 0)) by (rewrite length_map, length_linspace; lia).
    now rewrite map_nth, Hi.
  - rewrite (nth_indep _ 0 (np_power 10 0)) by (rewrite length_map, length_linspace; lia).
    now rewrite map_nth, Hl.
Qed.

(** Every curve of a run of [plotMoody], in the order drawn. *)
Lemma plotMoody_all_curves (plotPoint : bool) (pt : float * float) (marker : string)
    (markersize : float) (markeredgecolor markerfacecolor : string)
    (label : option fstring) (clear_plot : bool) (w : world) :
  exists calls,
    plotMoody plotPoint pt marker markersize markeredgecolor markerfacecolor label
      clear_plot w = (Ok tt, emit calls w) /\
    all_curves calls =
      (ReValsL, map (fun Re => 64 / Re) ReValsL, "b-"%string) ::
      (ReValsTrans, map (fun Re => 64 / Re) ReValsTrans, "b--"%string) ::
      map (fun rr =>
             (ReValsCB, map (fun Re => sol_x (fsolve (cb Re rr) 0.02)) ReValsCB,
              "k-"%string))
        [0; 1E-6; 5E-6; 1E-5; 5E-5; 1E-4; 2E-4; 4E-4; 6E-4; 8E-4;
         1E-3; 2E-3; 4E-3; 6E-3; 8E-3; 1.5E-2; 2E-2; 3E-2; 4E-2; 5E-2] /\
    last_xlim calls = Some (600, 1E8) /\
    last_ylim calls = Some (0.008, 0.10).
Proof.
  unfold plotMoody, bind, lift.
  rewrite !ff_laminar_row, ffCB_rows.
  unfold plt at 1 2 3. rewrite turbulent_loop.
  unfold plt, ret. rewrite !emit_emit.
  generalize ReValsCB ReValsL ReValsTrans (np_power 10 (np_log10 1e8)).
  intros XCB XL XT xl.
  destruct plotPoint; rewrite ?emit_emit; eexists; (split; [reflexivity|]);
    repeat split; reflexivity.
Qed.

(** C8, as the code has it: whatever its arguments and the world it starts
    from, [plotMoody] completes and draws exactly 22 curves, in this
    order: the laminar curve (format "b-", [64/Re]) over 20 points, the
    transitional curve (format "b--", [64/Re]) over 50 points, and 20
    turbulent curves (format "k-"), one for each of the roughnesses 0,
    1e-6, ..., 5e-2, all over the same 100 points.  The points of a range
    from [a] to [b] are the powers of ten of exponents evenly spaced from
    [log10(a)] to [log10(b)], ending with [10 ** log10(b)].  The axis
    limits are left at [(600, 1e8)] and [(0.008, 0.10)]. *)
Theorem plotMoody_curves (plotPoint : bool) (pt : float * float) (marker : string)
    (markersize : float) (markeredgecolor markerfacecolor : string)
    (label : option fstring) (clear_plot : bool) (w : world) :
  exists calls XL XT XCB,
    plotMoody plotPoint pt marker markersize markeredgecolor markerfacecolor label
      clear_plot w = (Ok tt, emit calls w) /\
    all_curves calls =
      (XL, map (fun Re => 64 / Re) XL, "b-"%string) ::
      (XT, map (fun Re => 64 / Re) XT, "b--"%string) ::
      map (fun rr =>
             (XCB, map (fun Re => sol_x (fsolve (cb Re rr) 0.02)) XCB, "k-"%string))
        [0; 1E-6; 5E-6; 1E-5; 5E-5; 1E-4; 2E-4; 4E-4; 6E-4; 8E-4;
         1E-3; 2E-3; 4E-3; 6E-3; 8E-3; 1.5E-2; 2E-2; 3E-2; 4E-2; 5E-2] /\
    length (all_curves calls) = 22%nat /\
    log_spaced 600 2000 20 XL /\
    log_spaced 2000 4000 50 XT /\
    log_spaced 4000 1e8 100 XCB /\
    last_xlim calls = Some (600, 1E8) /\
    last_ylim calls = Some (0.008, 0.10).
Proof.
  destruct (plotMoody_all_curves plotPoint pt marker markersize markeredgecolor
              markerfacecolor label clear_plot w) as (calls & Hrun & Hc & Hx & Hy).
  exists calls, ReValsL, ReValsTrans, ReValsCB.
  split; [exact Hrun|]. split; [exact Hc|]. split; [now rewrite Hc|].
  repeat split; try assumption; apply logspace_log_spaced; lia.
Qed.

(** C10: [clear_plot] is never read.  Two runs of [plotMoody] that differ
    only in that argument are equal, result and world: both append the
    same calls to the log and remove none.  So [PlotPoint], which passes
    [clear_plot=True], appends what [plotMoody] appends with
    [clear_plot=False], then one marker per point, the legend and [show]. *)
Theorem clear_plot_ignored (plotPoint : bool) (pt : float * float) (marker : string)
    (markersize : float) (markeredgecolor markerfacecolor : string)
    (label : option fstring) (points : list point) (w : world) :
  plotMoody plotPoint pt marker markersize markeredgecolor markerfacecolor label true w =
  plotMoody plotPoint pt marker markersize markeredgecolor markerfacecolor label false w /\
  (exists calls,
     plotMoody plotPoint pt marker markersize markeredgecolor markerfacecolor label
       true w = (Ok tt, emit calls w) /\
     plotMoody plotPoint pt marker markersize markeredgecolor markerfacecolor label
       false w = (Ok tt, emit calls w)) /\
  (exists base,
     plotMoody false (0, 0) "o" 10 "red" "none" None false w = (Ok tt, emit base w) /\
     PlotPoint points w =
       (Ok tt,
        emit (base ++
              flat_map (fun '(Re, f, is_transition, rr) =>
                [plot Re f (if is_transition : bool then "^" else "o") 10 "red" "none"
                   (Some (FCat (FLit "Re=")
                            (FCat (FSci 2 Re) (FCat (FLit ", rr=") (FSci 2 rr)))))])
                points ++
              [legend "Re, rr - First to Last" "best"; show]) w)).
Proof.
  split; [reflexivity|]. split.
  - destruct (plotMoody_run plotPoint pt marker markersize markeredgecolor
                markerfacecolor label true w) as (calls & Hrun & _).
    exists calls. split; exact Hrun.
  - destruct (plotMoody_run false (0, 0) "o" 10 "red" "none" None true w)
      as (base & Hrun & _).
    exists base. split; [exact Hrun|].
    unfold PlotPoint, bind. rewrite Hrun.
    rewrite for_emit with
      (g := fun p : point =>
              let '(Re, f, is_transition, rr) := p in
              [plot Re f (if is_transition : bool then "^" else "o")%string 10
                 "red" "none"
                 (Some (FCat (FLit "Re=")
                          (FCat (FSci 2 Re) (FCat (FLit ", rr=") (FSci 2 rr)))))]).
    + unfold plt. now rewrite !emit_emit, <- ?app_assoc.
    + intros [[[Re f] is_transition] rr] w' _. reflexivity.
Qed.

(** ** The relation at a negative iterate *)

Lemma sqrt_negative (f : float) : (f <? 0) = true -> sqrt f = nan.
Proof.
  intros H. apply Prim2SF_inj. rewrite sqrt_spec.
  rewrite ltb_spec in H. unfold SFltb in H.
  change (Prim2SF 0) with (S754_zero false) in H.
  change (Prim2SF nan) with S754_nan.
  destruct (Prim2SF f) as [sf | sf | | sf mf ef]; try destruct sf;
    try discriminate; reflexivity.
Qed.

Lemma div_nan (x : float) : x / nan = nan.
Proof.
  apply Prim2SF_inj. rewrite div_spec. change (Prim2SF nan) with S754_nan.
  now destruct (Prim2SF x).
Qed.

Lemma nan_add (x : float) : nan + x = nan.
Proof.
  apply Prim2SF_inj. rewrite add_spec. change (Prim2SF nan) with S754_nan.
  reflexivity.
Qed.

(** The residual the root-finder is given is the relation at [abs(f)], so
    it cannot tell [f] from [-f]; at a negative [f] the relation itself
    has no value. *)
Lemma colebrook_negative (Re rr f : float) :
  cb Re rr f = colebrook Re rr (abs f) /\
  ((f <? 0) = true -> colebrook Re rr f = nan).
Proof.
  split; [reflexivity|].
  intros H. unfold colebrook. now rewrite (sqrt_negative f H), div_nan, nan_add.
Qed.

(** ** More on the chart *)

(** The calls of [plotMoody], told apart: a body that does not depend on
    the arguments, and after it the marker that [plotPoint] asks for. *)
Lemma plotMoody_log :
  exists body,
    (forall (plotPoint : bool) (pt : float * float) (marker : string)
            (markersize : float) (markeredgecolor markerfacecolor : string)
            (label : option fstring) (clear_plot : bool) (w : world),
       plotMoody plotPoint pt marker markersize markeredgecolor markerfacecolor label
         clear_plot w =
       (Ok tt,
        emit (body ++
              if plotPoint
              then [plot (fst pt) (snd pt) marker markersize markeredgecolor
                      markerfacecolor label]
              else []) w)) /\
    markers body = [] /\
    filter is_show body = [] /\
    filter is_legend body = [] /\
    annotations body =
      map (fun rr =>
             annotate (np_power 10 (np_log10 1e8),
                       sol_x (fsolve (cb (np_power 10 (np_log10 1e8)) rr) 0.02))
                      (FSci 2 rr)) rrVals /\
    hd_error body = Some (figure 10 8).
Proof.
  eexists. split.
  - intros. unfold plotMoody, bind, lift.
    rewrite !ff_laminar_row, ffCB_rows.
    unfold plt at 1 2 3. rewrite turbulent_loop.
    unfold plt, ret. rewrite !emit_emit.
    destruct plotPoint; [rewrite emit_emit | rewrite app_nil_r]; reflexivity.
  - repeat split; reflexivity.
Qed.

(** X1: the calls of [plotMoody] are one body, the same whatever the
    arguments and the world, which holds no marker; [plotPoint=True] adds
    one marker at [pt] with the given style as the last call, and
    [plotPoint=False] adds nothing. *)
Theorem plotMoody_marker :
  exists body,
    markers body = [] /\
    forall (plotPoint : bool) (pt : float * float) (marker : string)
           (markersize : float) (markeredgecolor markerfacecolor : string)
           (label : option fstring) (clear_plot : bool) (w : world),
      plotMoody plotPoint pt marker markersize markeredgecolor markerfacecolor label
        clear_plot w =
      (Ok tt,
       emit (body ++
             if plotPoint
             then [plot (fst pt) (snd pt) marker markersize markeredgecolor
                     markerfacecolor label]
             else []) w).
Proof.
  destruct plotMoody_log as (body & Hrun & Hm & _).
  exists body. split; [exact Hm | exact Hrun].
Qed.

(** X2: [plotMoody] writes 20 annotations, one per roughness of [rrVals]
    and in that order: each sits at the last Reynolds number of the
    turbulent range, [10 ** log10(1e8)], and at the friction factor the
    turbulent branch returns there for that roughness, and shows the
    roughness in [.2e] format. *)
Theorem plotMoody_annotations (plotPoint : bool) (pt : float * float)
    (marker : string) (markersize : float) (markeredgecolor markerfacecolor : string)
    (label : option fstring) (clear_plot : bool) (w : world) :
  exists calls,
    plotMoody plotPoint pt marker markersize markeredgecolor markerfacecolor label
      clear_plot w = (Ok tt, emit calls w) /\
    index_last ReValsCB = Ok (np_power 10 (np_log10 1e8)) /\
    annotations calls =
      map (fun rr =>
             annotate (np_power 10 (np_log10 1e8),
                       sol_x (fsolve (cb (np_power 10 (np_log10 1e8)) rr) 0.02))
                      (FSci 2 rr)) rrVals /\
    length (annotations calls) = 20%nat.
Proof.
  destruct plotMoody_log as (body & Hrun & _ & _ & _ & Ha & _).
  eexists. split; [apply Hrun|]. split; [apply index_last_ReValsCB|].
  assert (annotations
            (body ++
             if plotPoint
             then [plot (fst pt) (snd pt) marker markersize markeredgecolor
                     markerfacecolor label]
             else []) = annotations body) as E.
  { unfold annotations. rewrite filter_app.
    destruct plotPoint; simpl; now rewrite app_nil_r. }
  rewrite E, Ha. split; [reflexivity|]. now rewrite length_map.
Qed.

(** X3: [plotMoody] opens a new figure with its first call and never
    calls [legend] or [show]: displaying the chart is left to the caller. *)
Theorem plotMoody_does_not_display (plotPoint : bool) (pt : float * float)
    (marker : string) (markersize : float) (markeredgecolor markerfacecolor : string)
    (label : option fstring) (clear_plot : bool) (w : world) :
  exists calls,
    plotMoody plotPoint pt marker markersize markeredgecolor markerfacecolor label
      clear_plot w = (Ok tt, emit calls w) /\
    hd_error calls = Some (figure 10 8) /\
    filter is_show calls = [] /\
    filter is_legend calls = [].
Proof.
  destruct plotMoody_log as (body & Hrun & _ & Hs & Hl & _ & Hh).
  eexists. split; [apply Hrun|].
  rewrite !filter_app, Hs, Hl.
  destruct body as [|c body]; [discriminate|].
  destruct plotPoint; repeat split; assumption || reflexivity.
Qed.

(** The markers that [PlotPoint] adds for its points. *)
Lemma markers_of_points (points : list point) :
  let g := fun p : point =>
             let '(Re, f, is_transition, rr) := p in
             [plot Re f (if is_transition : bool then "^" else "o")%string 10
                "red" "none"
                (Some (FCat (FLit "Re=")
                         (FCat (FSci 2 Re) (FCat (FLit ", rr=") (FSci 2 rr)))))] in
  markers (flat_map g points) = flat_map g points /\
  filter is_show (flat_map g points) = [] /\
  filter is_legend (flat_map g points) = [] /\
  length (flat_map g points) = length points.
Proof.
  induction points as [|[[[Re f] tr] rr] points (IH1 & IH2 & IH3 & IH4)]; simpl.
  - repeat split.
  - unfold markers in *. simpl. rewrite IH1, IH2, IH3, IH4. repeat split.
Qed.

Lemma PlotPoint_calls (points : list point) (w : world) :
  exists base,
    markers base = [] /\ filter is_show base = [] /\ filter is_legend base = [] /\
    PlotPoint points w =
      (Ok tt,
       emit ((base ++
              flat_map (fun p : point =>
                let '(Re, f, is_transition, rr) := p in
                [plot Re f (if is_transition : bool then "^" else "o")%string 10
                   "red" "none"
                   (Some (FCat (FLit "Re=")
                            (FCat (FSci 2 Re) (FCat (FLit ", rr=") (FSci 2 rr)))))])
                points) ++
             [legend "Re, rr - First to Last" "best"; show]) w).
Proof.
  destruct plotMoody_log as (body & Hrun & Hm & Hs & Hl & _).
  exists body. repeat split; try assumption.
  unfold PlotPoint, bind. rewrite Hrun. simpl. rewrite app_nil_r.
  rewrite for_emit with
    (g := fun p : point =>
            let '(Re, f, is_transition, rr) := p in
            [plot Re f (if is_transition : bool then "^" else "o")%string 10
               "red" "none"
               (Some (FCat (FLit "Re=")
                        (FCat (FSci 2 Re) (FCat (FLit ", rr=") (FSci 2 rr)))))]).
  - unfold plt. now rewrite !emit_emit, <- ?app_assoc.
  - intros [[[Re f] is_transition] rr] w' _. reflexivity.
Qed.

(** X4: [PlotPoint] never raises, for any list of points, the empty one
    included.  After the base diagram it draws one marker per point, in
    the order of the list, a triangle for a transitional point and a
    circle otherwise, labelled with [Re] and [rr]; then it calls [legend]
    and [show], each once, [show] last. *)
Theorem PlotPoint_log (points : list point) (w : world) :
  exists body,
    PlotPoint points w =
      (Ok tt, emit (body ++ [legend "Re, rr - First to Last" "best"; show]) w) /\
    markers body =
      map (fun p : point =>
             let '(Re, f, is_transition, rr) := p in
             plot Re f (if is_transition : bool then "^" else "o") 10 "red" "none"
               (Some (FCat (FLit "Re=")
                        (FCat (FSci 2 Re) (FCat (FLit ", rr=") (FSci 2 rr))))))
          points /\
    filter is_show body = [] /\
    filter is_legend body = [].
Proof.
  destruct (PlotPoint_calls points w) as (base & Hm & Hs & Hl & Hrun).
  destruct (markers_of_points points) as (Gm & Gs & Gl & _).
  eexists. split; [exact Hrun|].
  unfold markers in *. rewrite !filter_app, Hm, Hs, Hl, Gm, Gs, Gl.
  repeat split. simpl.
  clear. induction points as [|[[[Re f] tr] rr] points IH]; simpl; [reflexivity|].
  now rewrite IH.
Qed.

(** ** More on the engine *)

(** A NaN compares with nothing. *)
Lemma nan_not_leb (x y : float) :
  (x =? x) = false -> (x <=? y) = false /\ (y <=? x) = false.
Proof.
  to_spec.
  destruct (Prim2SF x) as [sx | sx | | sx mx ex]; simpl.
  - discriminate.
  - now destruct sx.
  - intros _. now destruct (Prim2SF y).
  - destruct sx; rewrite Z.compare_refl, Pos.compare_cont_refl; discriminate.
Qed.

Lemma ffPoint_pyplot (Re : number) (rr : float) (w : world) :
  pyplot (snd (ffPoint Re rr w)) = pyplot w.
Proof.
  unfold ffPoint.
  destruct (4000 <=? value Re); [reflexivity|].
  destruct (value Re <=? 2000); [reflexivity|].
  unfold bind, lift, rnd_normalvariate. simpl.
  now destruct (normalvariate _ _ _).
Qed.

Lemma ffPoint_zero (x rr : float) (w : world) :
  (x =? 0) = true -> ffPoint (PyFloat x) rr w = (Raise ZeroDivisionError, w).
Proof.
  intros H. destruct (eqb_leb _ _ H) as [Hle _].
  assert ((x <=? 2000) = true) as Hl by (now apply (leb_trans x 0 2000)).
  rewrite (ffPoint_laminar (PyFloat x) rr w Hl). simpl. now rewrite H.
Qed.

Lemma ffPoint_nan_draw (Re : number) (rr : float) (w : world) :
  (value Re =? value Re) = false ->
  ffPoint Re rr w =
    rnd_normalvariate ((sol_x (fsolve (cb 4000 rr) 0.02) + 64 / 2000) / 2)
      (0.2 * ((sol_x (fsolve (cb 4000 rr) 0.02) + 64 / 2000) / 2)) w.
Proof.
  intros H. unfold ffPoint.
  destruct (nan_not_leb (value Re) 4000 H) as [_ ->].
  destruct (nan_not_leb (value Re) 2000 H) as [-> _].
  reflexivity.
Qed.

(** X5: a Reynolds number that is NaN passes neither test of [ffPoint] and
    is treated as transitional: the result is a draw of
    [normalvariate mean (0.2 * mean)] with the mean of the transitional
    branch. *)
Theorem ffPoint_nan (Re : number) (rr : float) (w : world) :
  (value Re =? value Re) = false ->
  ffPoint Re rr w =
    rnd_normalvariate ((sol_x (fsolve (cb 4000 rr) 0.02) + 64 / 2000) / 2)
      (0.2 * ((sol_x (fsolve (cb 4000 rr) 0.02) + 64 / 2000) / 2)) w.
Proof. apply ffPoint_nan_draw. Qed.

(** X6: [ffPoint] raises exactly when [Re] is a Python float equal to zero
    (of either sign); the exception is then ZeroDivisionError and the world
    is left as it was.  For every other [Re], negative, infinite or NaN,
    and every [rr], it returns a value. *)
Theorem ffPoint_raises_iff (Re : number) (rr : float) (w : world) :
  ((exists e, fst (ffPoint Re rr w) = Raise e) <->
   (exists x, Re = PyFloat x /\ (x =? 0) = true)) /\
  (forall e, fst (ffPoint Re rr w) = Raise e ->
             ffPoint Re rr w = (Raise ZeroDivisionError, w)).
Proof.
  assert (forall e, fst (ffPoint Re rr w) = Raise e ->
                    exists x, Re = PyFloat x /\ (x =? 0) = true) as Honly.
  { intros e. unfold ffPoint.
    destruct (4000 <=? value Re); [discriminate|].
    destruct (value Re <=? 2000).
    - destruct Re as [x | x]; simpl; [|discriminate].
      destruct (x =? 0) eqn:E; [eauto | discriminate].
    - unfold bind, lift, rnd_normalvariate. simpl.
      destruct (normalvariate _ _ _). discriminate. }
  split; [split|].
  - intros [e He]. now apply (Honly e).
  - intros (x & -> & Hx). exists ZeroDivisionError. now rewrite ffPoint_zero.
  - intros e He. destruct (Honly e He) as (x & -> & Hx). now apply ffPoint_zero.
Qed.

(** X7: the engine and the chart are kept apart.  [ffPoint] never calls
    the plotting toolkit, and [plotMoody] and [PlotPoint] never advance the
    random source. *)
Theorem engine_and_chart_apart :
  (forall Re rr w, pyplot (snd (ffPoint Re rr w)) = pyplot w) /\
  (forall plotPoint pt marker markersize markeredgecolor markerfacecolor label
          clear_plot w,
     random_state
       (snd (plotMoody plotPoint pt marker markersize markeredgecolor markerfacecolor
               label clear_plot w)) = random_state w) /\
  (forall points w, random_state (snd (PlotPoint points w)) = random_state w).
Proof.
  split; [exact ffPoint_pyplot|]. split.
  - intros. destruct plotMoody_log as (body & Hrun & _). now rewrite Hrun.
  - intros. destruct (PlotPoint_calls points w) as (base & _ & _ & _ & Hrun).
    now rewrite Hrun.
Qed.

(** ** The sessions *)

Lemma io_bind_done {A B} (m : IO A) (k : A -> IO B) (s s' : session) (b : B) :
  io_bind m k s = (Done b, s') ->
  exists a s1, m s = (Done a, s1) /\ k a s1 = (Done b, s').
Proof.
  unfold io_bind. destruct (m s) as [[a | e] s1]; [eauto | discriminate].
Qed.

Lemma input_done (prompt l : string) (s s1 : session) :
  input prompt s = (Done l, s1) ->
  stdin s = l :: stdin s1 /\ stdout s1 = stdout s ++ [Prompt prompt] /\
  machine s1 = machine s.
Proof.
  unfold input. destruct (stdin s); [discriminate|]. now intros [= <- <-].
Qed.

Lemma to_float_done (str : string) (x : float) (s s1 : session) :
  to_float str s = (Done x, s1) -> py_float str = Some x /\ s1 = s.
Proof.
  unfold to_float. destruct (py_float str); [|discriminate]. now intros [= <- <-].
Qed.

Lemma io_lift_done {A} (r : result A) (x : A) (s s1 : session) :
  io_lift r s = (Done x, s1) -> r = Ok x /\ s1 = s.
Proof. destruct r; [|discriminate]. now intros [= <- <-]. Qed.

Lemma run_done {A} (m : M A) (a : A) (s s1 : session) :
  run m s = (Done a, s1) ->
  m (machine s) = (Ok a, machine s1) /\ stdin s1 = stdin s /\ stdout s1 = stdout s.
Proof.
  unfold run. destruct (m (machine s)) as [[a' | e] w]; [|discriminate].
  now intros [= <- <-].
Qed.

Lemma truediv_PyFloat_done (a d q : float) :
  truediv a (PyFloat d) = Ok q -> (d =? 0) = false /\ q = a / d.
Proof. simpl. destruct (d =? 0); [discriminate|]. now intros [= <-]. Qed.

(** The chart is left alone by everything a session does before
    [PlotPoint]. *)
Definition keeps_chart {A} (m : IO A) : Prop :=
  forall s, pyplot (machine (snd (m s))) = pyplot (machine s).

Lemma keeps_chart_bind {A B} (m : IO A) (k : A -> IO B) :
  keeps_chart m -> (forall a, keeps_chart (k a)) -> keeps_chart (io_bind m k).
Proof.
  intros Hm Hk s. unfold io_bind. specialize (Hm s).
  destruct (m s) as [[a | e] s1]; simpl in *; [|exact Hm].
  now rewrite (Hk a s1).
Qed.

Lemma keeps_chart_input (prompt : string) : keeps_chart (input prompt).
Proof. intros s. unfold input. now destruct (stdin s). Qed.

Lemma keeps_chart_to_float (str : string) : keeps_chart (to_float str).
Proof. intros s. unfold to_float. now destruct (py_float str). Qed.

Lemma keeps_chart_io_lift {A} (r : result A) : keeps_chart (io_lift r).
Proof. intros s. now destruct r. Qed.

Lemma keeps_chart_ffPoint (Re : number) (rr : float) :
  keeps_chart (run (ffPoint Re rr)).
Proof.
  intros s. unfold run. pose proof (ffPoint_pyplot Re rr (machine s)).
  now destruct (ffPoint _ _ _).
Qed.

Lemma keeps_chart_main_iteration : keeps_chart main_iteration.
Proof.
  unfold main_iteration.
  repeat first
    [ apply keeps_chart_bind; [|intros ?]
    | apply keeps_chart_input
    | apply keeps_chart_to_float
    | apply keeps_chart_io_lift
    | apply keeps_chart_ffPoint
    | match goal with
      | |- keeps_chart (match ?x with _ => _ end) => destruct x
      end
    | intros s; reflexivity ].
Qed.

Lemma keeps_chart_main_loop (passes : nat) (points : list point) :
  keeps_chart (main_loop passes points).
Proof.
  revert points. induction passes as [|passes IH]; intros points; simpl.
  - intros s. reflexivity.
  - apply keeps_chart_bind; [apply keeps_chart_main_iteration | intros p].
    apply keeps_chart_bind; [apply keeps_chart_input | intros answer].
    destruct (negb _); [intros s; reflexivity | apply IH].
Qed.

(** What a completed pass of the loop has read, computed, printed and
    stored. *)
Lemma main_iteration_done (s s' : session) (Re f : float) (tr : bool) (rr : float) :
  main_iteration s = (Done (Re, f, tr, rr), s') ->
  exists sD sE sQ D epsilon Q p hf_L,
    stdin s = sD :: sE :: sQ :: stdin s' /\
    stdout s' =
      stdout s ++ [Prompt "Enter the pipe diameter in inches: ";
                   Prompt "Enter the pipe roughness in micro-inches: ";
                   Prompt "Enter the flow rate in gallons per minute: ";
                   HeadLossLine hf_L] /\
    py_float sD = Some D /\ py_float sE = Some epsilon /\ py_float sQ = Some Q /\
    (D =? 0) = false /\
    py_pow2 (D / 12) = Some p /\
    (3.14159 * p / 4 =? 0) = false /\
    rr = epsilon * 1e-6 / D /\
    Re = 1.94 * (Q * 0.002228 / (3.14159 * p / 4)) * (D / 12) / 2.34e-5 /\
    tr = (2000 <? Re) && (Re <? 4000) /\
    ffPoint (PyFloat Re) rr (machine s) = (Ok f, machine s') /\
    calculate_head_loss_per_foot (returned Re f) D (Q * 0.002228 / (3.14159 * p / 4))
      = Done hf_L.
Proof.
  intros H. unfold main_iteration in H. cbv zeta in H.
  apply io_bind_done in H as (sD & s1 & H1 & H).
  apply io_bind_done in H as (D & s2 & H2 & H).
  apply io_bind_done in H as (sE & s3 & H3 & H).
  apply io_bind_done in H as (epsilon & s4 & H4 & H).
  apply io_bind_done in H as (sQ & s5 & H5 & H).
  apply io_bind_done in H as (Q & s6 & H6 & H).
  apply io_bind_done in H as (rr' & s7 & H7 & H).
  apply io_bind_done in H as (p & s8 & H8 & H).
  apply io_bind_done in H as (V & s9 & H9 & H).
  apply io_bind_done in H as (f' & s10 & H10 & H).
  apply io_bind_done in H as (hf_L & s11 & H11 & H).
  apply io_bind_done in H as (u & s12 & H12 & H).
  apply input_done in H1 as (I1 & O1 & M1).
  apply to_float_done in H2 as (P2 & ->).
  apply input_done in H3 as (I3 & O3 & M3).
  apply to_float_done in H4 as (P4 & ->).
  apply input_done in H5 as (I5 & O5 & M5).
  apply to_float_done in H6 as (P6 & ->).
  apply io_lift_done in H7 as (T7 & ->).
  apply truediv_PyFloat_done in T7 as (Z7 & ->).
  destruct (py_pow2 (D / 12)) as [p'|] eqn:P8; [|discriminate].
  injection H8 as <- <-.
  apply io_lift_done in H9 as (T9 & ->).
  apply truediv_PyFloat_done in T9 as (Z9 & ->).
  apply run_done in H10 as (F10 & I10 & O10).
  injection H11 as E11 <-.
  unfold write in H12. destruct u. injection H12 as <-.
  unfold io_ret in H. injection H as <- <- <- <- <-.
  exists sD, sE, sQ, D, epsilon, Q, p', hf_L. simpl.
  rewrite I1, I3, I5, I10, O10, O5, O3, O1, <- !app_assoc.
  rewrite M5, M3, M1 in F10.
  repeat split; assumption || reflexivity.
Qed.

(** The loop, when it ends normally, has completed at least one pass; it
    has read four lines and printed one head loss for each point it
    returns. *)
Lemma main_loop_done (passes : nat) :
  forall (points points' : list point) (s s' : session),
    main_loop passes points s = (Done points', s') ->
    exists new out,
      new <> [] /\ points' = points ++ new /\
      stdout s' = stdout s ++ out /\
      length (filter is_head_loss out) = length new /\
      length (stdin s) = (4 * length new + length (stdin s'))%nat.
Proof.
  induction passes as [|passes IH]; intros points points' s s' H; simpl in H.
  - discriminate.
  - apply io_bind_done in H as ([[[Re f] tr] rr] & s1 & Hit & H).
    apply io_bind_done in H as (answer & s2 & Hin & H).
    apply main_iteration_done in Hit
      as (sD & sE & sQ & D & eps & Q & p & h & I1 & O1 & _).
    apply input_done in Hin as (I2 & O2 & _).
    destruct (negb _).
    + injection H as <- <-.
      exists [(Re, f, tr, rr)]. eexists. split; [discriminate|]. split; [reflexivity|].
      split; [rewrite O2, O1, <- app_assoc; reflexivity|].
      split; [reflexivity|]. rewrite I1, I2. simpl. lia.
    + apply IH in H as (new & out & _ & -> & O3 & Hc & I3).
      exists ((Re, f, tr, rr) :: new). eexists. split; [discriminate|].
      split; [now rewrite <- app_assoc|].
      split; [rewrite O3, O2, O1, <- !app_assoc; reflexivity|].
      split.
      * rewrite !filter_app, !length_app. simpl. rewrite Hc. lia.
      * rewrite I1, I2. simpl. lia.
Qed.

(** The bound on the number of passes is never met: beyond the number of
    lines left to read, the loop does not depend on it. *)
Lemma main_loop_passes (passes : nat) :
  forall (passes' : nat) (points : list point) (s : session),
    (length (stdin s) < passes)%nat -> (length (stdin s) < passes')%nat ->
    main_loop passes points s = main_loop passes' points s.
Proof.
  induction passes as [|passes IH]; intros passes' points s Hp Hp'; [lia|].
  destruct passes' as [|passes']; [lia|]. simpl. unfold io_bind.
  destruct (main_iteration s) as [[[[[Re f] tr] rr] | e] s1] eqn:Hit; [|reflexivity].
  apply main_iteration_done in Hit as (sD & sE & sQ & D & eps & Q & p & h & I1 & _).
  unfold input. destruct (stdin s1) as [|answer rest] eqn:I2; [reflexivity|].
  destruct (negb _); [reflexivity|].
  apply IH; simpl; rewrite I1 in Hp, Hp'; simpl in Hp, Hp'; lia.
Qed.

(** X8: [hw5a.main] draws and shows the chart whatever the user answers,
    "no" included: the test [create_chart == 'yes' or 'y' or 'Yes'] is true
    for every answer, so the message of the other branch is never printed.
    The session prints the prompt alone, reads one line and appends to the
    log the calls of [plotMoody()] followed by [show]. *)
Theorem hw5a_main_always_plots (w : world) (answer : string) (rest : list string)
    (out : list printed) :
  exists calls,
    plotMoody false (0, 0) "o" 10 "red" "none" None false w = (Ok tt, emit calls w) /\
    hw5a_main {| machine := w; stdin := answer :: rest; stdout := out |} =
      (Done tt,
       {| machine := emit (calls ++ [show]) w;
          stdin := rest;
          stdout :=
            out ++ [Prompt "Do you want to print a blank Moody Chart? (yes/no): "] |}).
Proof.
  destruct plotMoody_log as (body & Hrun & _).
  eexists. split; [apply Hrun|].
  unfold hw5a_main, io_bind, input. simpl.
  assert (truthy (py_or (py_or (VBool (String.eqb answer "yes")) (VStr "y")) (VStr "Yes"))
          = true) as -> by (now destruct (String.eqb answer "yes")).
  unfold run. simpl. rewrite Hrun. simpl. unfold plt. now rewrite emit_emit.
Qed.

(** X9: a session of [hw5b.main] that ends with an exception, whichever
    and in whichever pass, has drawn nothing: the chart is only made once
    the loop has ended, so the points of the passes already completed are
    lost. *)
Theorem hw5b_main_failure_draws_nothing (s s' : session) (e : error) :
  hw5b_main s = (Fail e, s') -> pyplot (machine s') = pyplot (machine s).
Proof.
  unfold hw5b_main, io_bind. intros H.
  pose proof (keeps_chart_main_loop (S (length (stdin s))) [] s) as K.
  destruct (main_loop _ _ s) as [[points | e'] s1]; simpl in K.
  - unfold run in H.
    destruct (PlotPoint_calls points (machine s1)) as (base & _ & _ & _ & Hrun).
    rewrite Hrun in H. discriminate.
  - injection H as <- <-. exact K.
Qed.

Lemma main_iteration_completed (s s' : session) (p : point) :
  main_iteration s = (Done p, s') -> completed_pass s p s'.
Proof.
  destruct p as [[[Re f] tr] rr]. intros H.
  apply main_iteration_done in H
    as (sD & sE & sQ & D & eps & Q & D_ft2 & h & I & O & PD & PE & PQ & ZD & PP & ZA
        & -> & -> & -> & Hff & Hh).
  exists sD, sE, sQ, D, eps, Q, D_ft2, h. cbv zeta. exists f.
  repeat split; assumption.
Qed.

(** The points the loop returns are those of its passes, in order. *)
Lemma main_loop_passes_run (passes : nat) :
  forall (points points' : list point) (s s' : session),
    main_loop passes points s = (Done points', s') ->
    exists new, points' = points ++ new /\ passes_run s new s'.
Proof.
  induction passes as [|passes IH]; intros points points' s s' H; simpl in H.
  - discriminate.
  - apply io_bind_done in H as (p & s1 & Hit & H).
    apply io_bind_done in H as (answer & s2 & Hin & H).
    apply main_iteration_completed in Hit.
    apply input_done in Hin as (I2 & O2 & M2).
    assert (answered s1 answer s2) as Ha by (now repeat split).
    destruct (String.eqb (str_lower (str_strip answer)) "yes") eqn:E; simpl in H.
    + apply String.eqb_eq in E.
      apply IH in H as (new & -> & Hrun).
      exists (p :: new). split; [now rewrite <- app_assoc|].
      now apply (next_pass s s1 s2 s' p new answer).
    + apply String.eqb_neq in E. injection H as <- <-.
      exists [p]. split; [reflexivity|].
      now apply (last_pass s s1 s2 p answer).
Qed.

(** X10: a session of [hw5b.main] that ends normally has run its passes
    one after the other, each reading its three values, computing its
    point from them with [ffPoint] and printing its head loss, all answers
    but the last being "yes".  It then draws the base diagram of
    [plotMoody(clear_plot=True)], one marker per pass in the order of the
    passes, each for the point of its pass, then [legend] and [show].  There
    is at least one pass, four lines are read per pass and one head loss is
    printed per pass, and the chart is untouched before the last answer. *)
Theorem hw5b_main_success (s s' : session) :
  hw5b_main s = (Done tt, s') ->
  exists points s1 base out,
    passes_run s points s1 /\
    plotMoody false (0, 0) "o" 10 "red" "none" None true (machine s1) =
      (Ok tt, emit base (machine s1)) /\
    s' =
      {| machine :=
           emit (base ++
                 map (fun p : point =>
                        let '(Re, f, is_transition, rr) := p in
                        plot Re f (if is_transition : bool then "^" else "o") 10
                          "red" "none"
                          (Some (FCat (FLit "Re=")
                                   (FCat (FSci 2 Re)
                                      (FCat (FLit ", rr=") (FSci 2 rr))))))
                     points ++
                 [legend "Re, rr - First to Last" "best"; show]) (machine s1);
         stdin := stdin s1;
         stdout := stdout s1 |} /\
    points <> [] /\
    pyplot (machine s1) = pyplot (machine s) /\
    stdout s1 = stdout s ++ out /\
    length (filter is_head_loss out) = length points /\
    length (stdin s) = (4 * length points + length (stdin s1))%nat.
Proof.
  unfold hw5b_main. intros H.
  apply io_bind_done in H as (points & s1 & Hloop & H).
  pose proof (keeps_chart_main_loop (S (length (stdin s))) [] s) as K.
  rewrite Hloop in K. simpl in K.
  destruct (main_loop_passes_run _ _ _ _ _ Hloop) as (new & Hnew & Hrun).
  apply main_loop_done in Hloop as (new' & out & Hne & Hp & Ho & Hc & Hi).
  simpl in Hnew, Hp. subst new new'.
  destruct plotMoody_log as (base & Hbase & _).
  exists points, s1, base, out.
  split; [exact Hrun|].
  split; [now rewrite Hbase, app_nil_r|].
  split; [|now repeat split].
  unfold run in H.
  unfold PlotPoint, bind in H. rewrite Hbase in H.
  rewrite for_emit with
    (g := fun p : point =>
            let '(Re, f, is_transition, rr) := p in
            [plot Re f (if is_transition : bool then "^" else "o")%string 10
               "red" "none"
               (Some (FCat (FLit "Re=")
                        (FCat (FSci 2 Re) (FCat (FLit ", rr=") (FSci 2 rr)))))]) in H.
  - unfold plt in H. rewrite !emit_emit in H. injection H as <-.
    rewrite app_nil_r, <- ?app_assoc. do 3 f_equal.
    clear. induction points as [|[[[Re f] tr] rr] points IH]; simpl; [reflexivity|].
    now rewrite IH.
  - intros [[[Re f] is_transition] rr] w' _. reflexivity.
Qed.

(** X11: a diameter that reads as zero ends the session of [hw5b.main]
    with ZeroDivisionError, raised by [rr = epsilon_m / D] once the three
    values have been read: no friction factor is computed, nothing is
    printed but the three prompts, nothing is drawn. *)
Theorem hw5b_main_zero_diameter (w : world) (sD sE sQ : string) (rest : list string)
    (out : list printed) (D epsilon Q : float) :
  py_float sD = Some D -> py_float sE = Some epsilon -> py_float sQ = Some Q ->
  (D =? 0) = true ->
  hw5b_main {| machine := w; stdin := sD :: sE :: sQ :: rest; stdout := out |} =
    (Fail (Exn ZeroDivisionError),
     {| machine := w; stdin := rest;
        stdout := out ++ [Prompt "Enter the pipe diameter in inches: ";
                          Prompt "Enter the pipe roughness in micro-inches: ";
                          Prompt "Enter the flow rate in gallons per minute: "] |}).
Proof.
  intros HD HE HQ Hz.
  unfold hw5b_main. simpl. unfold main_iteration, io_bind, input, to_float. simpl.
  rewrite HD. simpl. rewrite HE. simpl. rewrite HQ. simpl. rewrite Hz. simpl.
  now rewrite <- !app_assoc.
Qed.

(** X12: a Reynolds number that comes out as zero, as a zero flow rate
    gives, ends the session of [hw5b.main] with ZeroDivisionError, raised
    by [64/Re] inside [ffPoint]: no head loss is printed and nothing is
    drawn. *)
Theorem hw5b_main_zero_Reynolds (w : world) (sD sE sQ : string) (rest : list string)
    (out : list printed) (D epsilon Q p : float) :
  py_float sD = Some D -> py_float sE = Some epsilon -> py_float sQ = Some Q ->
  (D =? 0) = false ->
  py_pow2 (D / 12) = Some p ->
  (3.14159 * p / 4 =? 0) = false ->
  (1.94 * (Q * 0.002228 / (3.14159 * p / 4)) * (D / 12) / 2.34e-5 =? 0) = true ->
  hw5b_main {| machine := w; stdin := sD :: sE :: sQ :: rest; stdout := out |} =
    (Fail (Exn ZeroDivisionError),
     {| machine := w; stdin := rest;
        stdout := out ++ [Prompt "Enter the pipe diameter in inches: ";
                          Prompt "Enter the pipe roughness in micro-inches: ";
                          Prompt "Enter the flow rate in gallons per minute: "] |}).
Proof.
  intros HD HE HQ Hz Hp Ha Hre.
  unfold hw5b_main. simpl. unfold main_iteration, io_bind, input, to_float. simpl.
  rewrite HD. simpl. rewrite HE. simpl. rewrite HQ. simpl. rewrite Hz. simpl.
  rewrite Hp. simpl. rewrite Ha. simpl.
  unfold run. simpl. rewrite (ffPoint_zero _ _ w Hre).
  now rewrite <- !app_assoc.
Qed.

(** X13: in a completed pass the stored friction factor is what [ffPoint]
    returned for the stored [Re] and [rr].  A point flagged transitional
    (drawn as a triangle) holds one draw of the random source; a point not
    flagged, with a [Re] that is a number, left the random source as it
    was; but a [Re] that is NaN is not flagged although its friction
    factor is a draw as well. *)
Theorem main_iteration_flag (s s' : session) (Re f : float) (tr : bool) (rr : float) :
  main_iteration s = (Done (Re, f, tr, rr), s') ->
  ffPoint (PyFloat Re) rr (machine s) = (Ok f, machine s') /\
  (tr = true \/ (Re =? Re) = false ->
   exists mean,
     normalvariate mean (0.2 * mean) (random_state (machine s)) =
       (f, random_state (machine s'))) /\
  (tr = false -> (Re =? Re) = true ->
   random_state (machine s') = random_state (machine s)) /\
  ((Re =? Re) = false -> tr = false).
Proof.
  intros H.
  apply main_iteration_done in H
    as (sD & sE & sQ & D & eps & Q & p & h & _ & _ & _ & _ & _ & _ & _ & _ & _ & _
        & Htr & Hff & _).
  split; [exact Hff|].
  assert (forall mean sig,
            ffPoint (PyFloat Re) rr (machine s) = rnd_normalvariate mean sig (machine s) ->
            normalvariate mean sig (random_state (machine s)) =
              (f, random_state (machine s'))) as Hdraw.
  { intros mean sig E. rewrite Hff in E. unfold rnd_normalvariate in E.
    destruct (normalvariate _ _ _) as [x g]. now injection E as <- ->. }
  repeat split.
  - intros [Ht | Hnan]; eexists; apply Hdraw.
    + rewrite Htr in Ht. apply andb_true_iff in Ht. destruct Ht as [H1 H2].
      now apply (ffPoint_draw (PyFloat Re) rr (machine s)).
    + now apply (ffPoint_nan_draw (PyFloat Re) rr (machine s)).
  - intros Hf Hord. rewrite Htr in Hf.
    assert ((4000 <=? Re) = true \/ (Re <=? 2000) = true) as [Ht | Hl].
    { apply andb_false_iff in Hf.
      assert ((2000 =? 2000) = true /\ (4000 =? 4000) = true) as [E2 E4] by (now split).
      destruct Hf as [Hf | Hf]; [right | left]; now apply not_ltb_leb. }
    + rewrite (ffPoint_turbulent (PyFloat Re) rr (machine s) Ht) in Hff.
      now injection Hff as _ <-.
    + rewrite (ffPoint_laminar (PyFloat Re) rr (machine s) Hl) in Hff.
      now injection Hff as _ <-.
  - intros Hnan. rewrite Htr.
    destruct (2000 <? Re) eqn:E; [|reflexivity].
    destruct (ltb_ordered _ _ E) as [_ Hc]. congruence.
Qed.

End Program.


(** ** Runs on concrete inputs, with the reference routines *)

Local Abbreviation run_ff := (ff Reference.log10 Reference.fsolve).
Local Abbreviation run_ffPoint :=
  (ffPoint Reference.log10 Reference.fsolve Reference.rng Reference.normalvariate).
Local Abbreviation draw := (rnd_normalvariate Reference.rng Reference.normalvariate).
Local Abbreviation w0 := {| random_state := [0.5]; pyplot := [] |}.

Lemma ffPoint_dispatch_witness :
  run_ffPoint (PyFloat 10000) 0.001 w0 = (run_ff (PyFloat 10000) 0.001 true, w0) /\
  run_ffPoint (PyFloat 1000) 0 w0 = (run_ff (PyFloat 1000) 0 false, w0) /\
  (exists mean sig, run_ffPoint (PyFloat 3000) 0.0001 w0 = draw mean sig w0) /\
  run_ffPoint (PyFloat 1000) 0 w0 = (run_ff (PyFloat 1000) 0 (4000 <=? 1000), w0).
Proof.
  destruct (ffPoint_dispatch Reference.log10 Reference.fsolve Reference.rng
              Reference.normalvariate (PyFloat 10000) 0.001 w0 eq_refl)
    as (Ht & _).
  destruct (ffPoint_dispatch Reference.log10 Reference.fsolve Reference.rng
              Reference.normalvariate (PyFloat 1000) 0 w0 eq_refl)
    as (_ & Hl & _ & Ho).
  destruct (ffPoint_dispatch Reference.log10 Reference.fsolve Reference.rng
              Reference.normalvariate (PyFloat 3000) 0.0001 w0 eq_refl)
    as (_ & _ & Hd & _).
  exact (conj (Ht eq_refl) (conj (Hl eq_refl) (conj (Hd eq_refl) (Ho eq_refl)))).
Defined.

Lemma laminar_exact_witness :
  (0 <? 1000) = true /\ (1000 <=? 2000) = true /\
  run_ff (PyFloat 1000) 0 false = Ok 0.064 /\
  run_ffPoint (PyFloat 1000) 0 w0 = (Ok 0.064, w0).
Proof.
  split; [reflexivity|]. split; [reflexivity|].
  apply (laminar_exact Reference.log10 Reference.fsolve Reference.rng
           Reference.normalvariate (PyFloat 1000) 0 w0); reflexivity.
Defined.

Lemma ffPoint_transitional_witness :
  exists CBf Lf,
    run_ff (PyFloat 4000) 0.0001 true = Ok CBf /\
    run_ff (PyFloat 2000) 0.0001 false = Ok Lf /\
    Lf = 64 / 2000 /\
    run_ffPoint (PyFloat 3000) 0.0001 w0 =
      (let mean := (CBf + Lf) / 2 in
       let (x, g) := Reference.normalvariate mean (0.2 * mean) [0.5] in
       (Ok x, {| random_state := g; pyplot := [] |})) /\
    run_ffPoint (PyFloat 2500) 0.0001 w0 = run_ffPoint (PyFloat 3000) 0.0001 w0.
Proof.
  apply (ffPoint_transitional Reference.log10 Reference.fsolve Reference.rng
           Reference.normalvariate (PyFloat 3000) (PyFloat 2500) 0.0001 w0);
    reflexivity.
Defined.

Lemma ff_returns_unchecked_iterate_witness :
  fsolve_warns (Reference.fsolve_damped (cb Reference.log10 10000 (-1))
                  (py_max 0.02 1e-5)) = true /\
  ff Reference.log10 Reference.fsolve_damped (PyFloat 10000) (-1) true =
    Ok (sol_x (Reference.fsolve_damped (cb Reference.log10 10000 (-1))
                 (py_max 0.02 1e-5))) /\
  ((4000 <=? 10000) = true ->
   ffPoint Reference.log10 Reference.fsolve_damped Reference.rng
     Reference.normalvariate (PyFloat 10000) (-1) w0 =
     (Ok (sol_x (Reference.fsolve_damped (cb Reference.log10 10000 (-1))
                   (py_max 0.02 1e-5))), w0)) /\
  ff_warns Reference.log10 Reference.fsolve_damped (PyFloat 10000) (-1) true = true.
Proof.
  split; [vm_compute; reflexivity|].
  apply (ff_returns_unchecked_iterate Reference.log10 Reference.fsolve_damped
           Reference.rng Reference.normalvariate (PyFloat 10000) (-1) w0).
  vm_compute; reflexivity.
Defined.

Lemma ffPoint_nonpositive_Re_witness :
  ((-5 <=? 0) = true /\ run_ffPoint (PyFloat (-5)) 0 w0 = (Ok (64 / -5), w0)) /\
  ((0 <=? 0) = true /\ run_ffPoint (PyFloat 0) 0 w0 = (Raise ZeroDivisionError, w0)).
Proof.
  split; (split; [reflexivity|]).
  - apply (ffPoint_nonpositive_Re Reference.log10 Reference.fsolve Reference.rng
             Reference.normalvariate (-5) 0 w0). reflexivity.
  - apply (ffPoint_nonpositive_Re Reference.log10 Reference.fsolve Reference.rng
             Reference.normalvariate 0 0 w0). reflexivity.
Defined.

Lemma ff_roughness_unchecked_witness :
  ((0.5 <? 0) = true \/ (0.05 <? 0.5) = true) /\
  run_ff (PyFloat 1000) 0.5 false = truediv 64 (PyFloat 1000) /\
  run_ff (PyFloat 1000) 0.5 true =
    Ok (sol_x (Reference.fsolve
                 (fun f => 1 / sqrt (abs f) +
                    2.0 * Reference.log10 (0.5 / 3.7 + 2.51 / (1000 * sqrt (abs f))))
                 0.02)) /\
  ((0 <? 1000) = true -> exists f w', run_ffPoint (PyFloat 1000) 0.5 w0 = (Ok f, w')).
Proof.
  split; [right; reflexivity|].
  apply (ff_roughness_unchecked Reference.log10 Reference.fsolve Reference.rng
           Reference.normalvariate (PyFloat 1000) 0.5 w0).
  right; reflexivity.
Defined.

(** ** Where the specification and the code part *)

(** C5 as stated fails.  With [Re = 1e4] and a roughness of [-1] the
    Colebrook residual at the initial guess is the logarithm of a negative
    number, NaN; no step brings it down, and the root-finder gives up with
    status 5 on the initial guess, [0.02].  [fsolve] issues its
    RuntimeWarning, and [ff] and [ffPoint] return [0.02] as a plain value. *)
Lemma nonconvergence_returned :
  cb Reference.log10 10000 (-1) 0.02 = nan /\
  Reference.fsolve_damped (cb Reference.log10 10000 (-1)) (py_max 0.02 1e-5) =
    {| sol_x := 0.02; sol_ier := 5 |} /\
  ff_warns Reference.log10 Reference.fsolve_damped (PyFloat 10000) (-1) true = true /\
  ff Reference.log10 Reference.fsolve_damped (PyFloat 10000) (-1) true = Ok 0.02 /\
  ffPoint Reference.log10 Reference.fsolve_damped Reference.rng Reference.normalvariate
    (PyFloat 10000) (-1) w0 = (Ok 0.02, w0).
Proof. repeat split; vm_compute; reflexivity. Qed.

(** C6 as stated fails: [Re = -5] is not rejected, [ffPoint] returns
    [64 / -5]. *)
Lemma negative_Re_computed :
  (-5 <=? 0) = true /\
  run_ffPoint (PyFloat (-5)) 0 w0 = (Ok (-12.8), w0).
Proof. split; reflexivity. Qed.

(** C7 as stated fails: [rr = 0.5] is not rejected; the laminar branch
    returns [64/1000] and the turbulent branch solves with that roughness. *)
Lemma roughness_out_of_range_computed :
  (0.05 <? 0.5) = true /\
  run_ffPoint (PyFloat 1000) 0.5 w0 = (Ok 0.064, w0) /\
  run_ffPoint (PyFloat 10000) 0.5 w0 = (Ok 0.3319455160246812, w0).
Proof. repeat split; vm_compute; reflexivity. Qed.

(** C8 as stated fails for the ranges: the end points of a range from [a]
    to [b] are [10 ** log10(a)] and [10 ** log10(b)], which rounding moves
    off [a] and [b], so the points of the three families do not all lie in
    [[600, 2000]], [[2000, 4000]] and [[4000, 1e8]]. *)
Lemma curve_points_outside_ranges :
  exists calls,
    plotMoody Reference.log10 Reference.power Reference.fsolve_damped Reference.rng
      false (0, 0) "o" 10 "red" "none" None false w0 = (Ok tt, emit _ calls w0) /\
    forallb (fun c => all_within 600 2000 (fst c)) (curves "b-" calls) &&
    forallb (fun c => all_within 2000 4000 (fst c)) (curves "b--" calls) &&
    forallb (fun c => all_within 4000 1e8 (fst c)) (curves "k-" calls) = false.
Proof.
  destruct (plotMoody_run Reference.log10 Reference.power Reference.fsolve_damped
              Reference.rng false (0, 0) "o" 10 "red" "none" None false w0)
    as (calls & Hrun & HL & HT & HCB & _).
  exists calls. split; [exact Hrun|].
  rewrite HL, HT, HCB. vm_compute. reflexivity.
Qed.

(** C3 fails on the code at [Re = 1e8], [rr = 0], the last point of the
    smooth-pipe curve of the diagram.  The root-finder converges (status 1)
    to the mirror image of the root, about [-0.00594]: the residual it is
    given, in [abs(f)], has vanished, but the relation as written has no
    value at this [f], and [ff] returns it as the friction factor. *)
Theorem ff_negative_root :
  exists f,
    ff Reference.log10 Reference.fsolve_damped (PyFloat 1e8) 0 true = Ok f /\
    sol_ier (Reference.fsolve_damped (cb Reference.log10 1e8 0) (py_max 0.02 1e-5))
      = 1%Z /\
    (-0.005941 <? f) = true /\ (f <? -0.005940) = true /\
    colebrook Reference.log10 1e8 0 f = nan /\
    (abs (colebrook Reference.log10 1e8 0 (abs f)) <=? 1e-6) = true.
Proof.
  eexists. split; [reflexivity|]. repeat split; vm_compute; reflexivity.
Qed.

(** C9 fails on the code for [rr = 0]: from [Re = 17571068.8] to
    [19463539.3] to [1e8] the value [ff] returns goes up, from about
    [-0.0074779] to [-0.0073722] to [-0.00594].  The three are mirror
    images of the roots, whose magnitudes do go down. *)
Theorem ff_not_monotone :
  exists f1 f2 f3,
    ff Reference.log10 Reference.fsolve_damped (PyFloat 17571068.8) 0 true = Ok f1 /\
    ff Reference.log10 Reference.fsolve_damped (PyFloat 19463539.3) 0 true = Ok f2 /\
    ff Reference.log10 Reference.fsolve_damped (PyFloat 1e8) 0 true = Ok f3 /\
    (4000 <=? 17571068.8) = true /\
    (17571068.8 <=? 19463539.3) = true /\ (19463539.3 <=? 1e8) = true /\
    (f1 <? f2) = true /\ (f2 <? f3) = true /\ (f3 <? 0) = true /\
    (-0.007478 <? f1) = true /\ (f1 <? -0.007477) = true /\
    (-0.007373 <? f2) = true /\ (f2 <? -0.007372) = true /\
    (abs f3 <? abs f2) = true /\ (abs f2 <? abs f1) = true.
Proof.
  eexists. eexists. eexists.
  split; [reflexivity|]. split; [reflexivity|]. split; [reflexivity|].
  repeat split; vm_compute; reflexivity.
Qed.

(** ** Sessions on concrete inputs, with the reference routines *)

Local Abbreviation run_iteration :=
  (main_iteration Reference.log10 Reference.fsolve Reference.rng
     Reference.normalvariate Reference.read_float Reference.pow2).
Local Abbreviation run_hw5b :=
  (hw5b_main Reference.log10 Reference.power Reference.fsolve Reference.rng
     Reference.normalvariate Reference.read_float Reference.pow2 Reference.strip
     Reference.lower).
Local Abbreviation session0 lines := {| machine := w0; stdin := lines; stdout := [] |}.

Lemma ffPoint_nan_witness :
  (nan =? nan) = false /\
  run_ffPoint (PyFloat nan) 0.0001 w0 =
    draw ((sol_x (Reference.fsolve (cb Reference.log10 4000 0.0001) 0.02) + 64 / 2000) / 2)
      (0.2 *
       ((sol_x (Reference.fsolve (cb Reference.log10 4000 0.0001) 0.02) + 64 / 2000) / 2))
      w0.
Proof.
  split; [reflexivity|].
  apply (ffPoint_nan Reference.log10 Reference.fsolve Reference.rng
           Reference.normalvariate (PyFloat nan) 0.0001 w0).
  reflexivity.
Defined.

Lemma hw5b_main_failure_draws_nothing_witness :
  fst (run_hw5b (session0 ["1"; "100"; "10"; "yes"; "0"; "1"; "1"]%string)) =
    Fail (Exn ZeroDivisionError) /\
  pyplot _ (machine _
              (snd (run_hw5b (session0 ["1"; "100"; "10"; "yes"; "0"; "1"; "1"]%string))))
    = [].
Proof.
  assert (fst (run_hw5b (session0 ["1"; "100"; "10"; "yes"; "0"; "1"; "1"]%string)) =
          Fail (Exn ZeroDivisionError)) as E by (vm_compute; reflexivity).
  split; [exact E|].
  apply (hw5b_main_failure_draws_nothing Reference.log10 Reference.power
           Reference.fsolve Reference.rng Reference.normalvariate Reference.read_float
           Reference.pow2 Reference.strip Reference.lower
           (session0 ["1"; "100"; "10"; "yes"; "0"; "1"; "1"]%string) _
           (Exn ZeroDivisionError)).
  rewrite <- E. apply surjective_pairing.
Defined.

Lemma hw5b_main_success_witness :
  exists points s1 base out,
    passes_run Reference.log10 Reference.fsolve Reference.rng Reference.normalvariate
      Reference.read_float Reference.pow2 Reference.strip Reference.lower
      (session0 ["1"; "100"; "1"; " Yes "; "1"; "100"; "10"; "no"]%string) points s1 /\
    plotMoody Reference.log10 Reference.power Reference.fsolve Reference.rng
      false (0, 0) "o" 10 "red" "none" None true (machine _ s1) =
      (Ok tt, emit _ base (machine _ s1)) /\
    snd (run_hw5b (session0 ["1"; "100"; "1"; " Yes "; "1"; "100"; "10"; "no"]%string)) =
      {| machine :=
           emit _ (base ++
                   map (fun p : point =>
                          let '(Re, f, is_transition, rr) := p in
                          plot Re f (if is_transition : bool then "^" else "o") 10
                            "red" "none"
                            (Some (FCat (FLit "Re=")
                                     (FCat (FSci 2 Re)
                                        (FCat (FLit ", rr=") (FSci 2 rr))))))
                       points ++
                   [legend "Re, rr - First to Last" "best"; show]) (machine _ s1);
         stdin := stdin _ s1;
         stdout := stdout _ s1 |} /\
    points <> [] /\
    pyplot _ (machine _ s1) = [] /\
    stdout _ s1 = [] ++ out /\
    length (filter is_head_loss out) = length points /\
    length ["1"; "100"; "1"; " Yes "; "1"; "100"; "10"; "no"]%string =
      (4 * length points + length (stdin _ s1))%nat.
Proof.
  assert (fst (run_hw5b
                 (session0 ["1"; "100"; "1"; " Yes "; "1"; "100"; "10"; "no"]%string)) =
          Done tt) as E by (vm_compute; reflexivity).
  apply (hw5b_main_success Reference.log10 Reference.power Reference.fsolve
           Reference.rng Reference.normalvariate Reference.read_float Reference.pow2
           Reference.strip Reference.lower
           (session0 ["1"; "100"; "1"; " Yes "; "1"; "100"; "10"; "no"]%string) _).
  rewrite <- E. apply surjective_pairing.
Defined.

Lemma hw5b_main_zero_diameter_witness :
  run_hw5b (session0 ["0"; "100"; "10"; "no"]%string) =
    (Fail (Exn ZeroDivisionError),
     {| machine := w0; stdin := ["no"%string];
        stdout := [] ++ [Prompt "Enter the pipe diameter in inches: ";
                         Prompt "Enter the pipe roughness in micro-inches: ";
                         Prompt "Enter the flow rate in gallons per minute: "] |}).
Proof.
  apply (hw5b_main_zero_diameter Reference.log10 Reference.power Reference.fsolve
           Reference.rng Reference.normalvariate Reference.read_float Reference.pow2
           Reference.strip Reference.lower w0 "0" "100" "10" ["no"%string] []
           0 100 10); reflexivity.
Defined.

Lemma hw5b_main_zero_Reynolds_witness :
  run_hw5b (session0 ["1"; "100"; "0"; "no"]%string) =
    (Fail (Exn ZeroDivisionError),
     {| machine := w0; stdin := ["no"%string];
        stdout := [] ++ [Prompt "Enter the pipe diameter in inches: ";
                         Prompt "Enter the pipe roughness in micro-inches: ";
                         Prompt "Enter the flow rate in gallons per minute: "] |}).
Proof.
  apply (hw5b_main_zero_Reynolds Reference.log10 Reference.power Reference.fsolve
           Reference.rng Reference.normalvariate Reference.read_float Reference.pow2
           Reference.strip Reference.lower w0 "1" "100" "0" ["no"%string] []
           1 100 0 (1 / 12 * (1 / 12))); reflexivity.
Defined.

Lemma main_iteration_flag_witness :
  run_ffPoint (PyFloat 2822.2325115299691) 9.9999999999999991e-05 w0 =
    (Ok 0.039604637178455339, {| random_state := []; pyplot := [] |}) /\
  (true = true \/ (2822.2325115299691 =? 2822.2325115299691) = false ->
   exists mean,
     Reference.normalvariate mean (0.2 * mean) [0.5] = (0.039604637178455339, [])).
Proof.
  destruct (main_iteration_flag Reference.log10 Reference.fsolve Reference.rng
              Reference.normalvariate Reference.read_float Reference.pow2
              (session0 ["1"; "100"; "1"; "no"]%string)
              {| machine := {| random_state := []; pyplot := [] |};
                 stdin := ["no"%string];
                 stdout := [Prompt "Enter the pipe diameter in inches: ";
                            Prompt "Enter the pipe roughness in micro-inches: ";
                            Prompt "Enter the flow rate in gallons per minute: ";
                            HeadLossLine 0.0012314527299733464] |}
              2822.2325115299691 0.039604637178455339 true 9.9999999999999991e-05)
    as (H1 & H2 & _).
  - vm_compute. reflexivity.
  - split; [exact H1 | exact H2].
Defined.
